(** * Learning-Agent: exams controller, exam wizard and AI request builder

    A shallow embedding of
    - [backend/src/modules/exams/infrastructure/http/exams.controller.ts]
      (module [ExamsController]),
    - the wizard component [ExamForm] (module [ExamForm]),
    - [client/src/pages/exams/ExamCreatePage.tsx] (module [ExamCreatePage]),
    together with the small part of JavaScript's value semantics these
    sources rely on (module [Js]). *)

From Stdlib Require Import ZArith QArith String Ascii List Lia.
From stdpp Require Import base gmap sets list strings pretty.

Local Open Scope string_scope.
Local Open Scope bool_scope.

(** ** JavaScript values used by the sources *)

Module Js.

(** A JavaScript number.  Finite values are kept as exact rationals: the
    rounding of IEEE-754 doubles is not modelled, and [-0] is identified
    with [0] (no comparison used by the sources tells them apart). *)
Inductive number : Type :=
| NaN
| PosInf
| NegInf
| Fin (q : Q).

Definition of_Z (z : Z) : number := Fin (inject_Z z).

Definition zero : number := of_Z 0.
Definition one : number := of_Z 1.

Definition isNaN (x : number) : bool :=
  match x with NaN => true | _ => false end.

(** [x + y] *)
Definition add (x y : number) : number :=
  match x, y with
  | NaN, _ | _, NaN => NaN
  | PosInf, NegInf | NegInf, PosInf => NaN
  | PosInf, _ | _, PosInf => PosInf
  | NegInf, _ | _, NegInf => NegInf
  | Fin a, Fin b => Fin (Qred (Qplus a b))
  end.

(** [x < y]; every comparison with [NaN] is false *)
Definition lt (x y : number) : bool :=
  match x, y with
  | NaN, _ | _, NaN => false
  | _, NegInf => false
  | NegInf, _ => true
  | PosInf, _ => false
  | Fin _, PosInf => true
  | Fin a, Fin b => negb (Qle_bool b a)
  end.

(** [x === y] on numbers *)
Definition strict_eq (x y : number) : bool :=
  match x, y with
  | PosInf, PosInf | NegInf, NegInf => true
  | Fin a, Fin b => Qeq_bool a b
  | _, _ => false
  end.

Definition gt (x y : number) : bool := lt y x.
Definition le (x y : number) : bool := lt x y || strict_eq x y.
Definition strict_neq (x y : number) : bool := negb (strict_eq x y).

(** ToBoolean on a number: [NaN] and [0] are falsy *)
Definition truthy_number (x : number) : bool :=
  match x with
  | NaN => false
  | Fin q => negb (Qeq_bool q 0)
  | _ => true
  end.

(** ToBoolean on a string: only the empty string is falsy *)
Definition truthy_string (s : string) : bool :=
  match s with EmptyString => false | _ => true end.

Definition is_integer (x : number) : bool :=
  match x with
  | Fin q => Pos.eqb (Qden (Qred q)) 1
  | _ => false
  end.

(** *** [Number(s)] on a string (StringToNumber) *)

Local Open Scope char_scope.

(** ASCII members of StrWhiteSpaceChar: TAB, LF, VT, FF, CR, SP *)
Definition is_ws (c : ascii) : bool :=
  match nat_of_ascii c with
  | 9 | 10 | 11 | 12 | 13 | 32 => true
  | _ => false
  end%nat.

Fixpoint trim_start (s : list ascii) : list ascii :=
  match s with
  | c :: r => if is_ws c then trim_start r else s
  | [] => []
  end.

Definition trim (s : list ascii) : list ascii :=
  rev (trim_start (rev (trim_start s))).

Definition digit_val (base : N) (c : ascii) : option N :=
  let n := N_of_ascii c in
  let v :=
    if (48 <=? n)%N && (n <=? 57)%N then Some (n - 48)%N
    else if (97 <=? n)%N && (n <=? 102)%N then Some (n - 87)%N
    else if (65 <=? n)%N && (n <=? 70)%N then Some (n - 55)%N
    else None in
  match v with
  | Some d => if (d <? base)%N then Some d else None
  | None => None
  end.

(** Reads the longest run of digits of [s] in [base]: the value read on
    top of [acc], the number of digits read, and the rest of [s]. *)
Fixpoint take_digits (base : N) (s : list ascii) (acc : N) (cnt : nat)
  : N * nat * list ascii :=
  match s with
  | c :: r =>
      match digit_val base c with
      | Some d => take_digits base r (acc * base + d)%N (S cnt)
      | None => (acc, cnt, s)
      end
  | [] => (acc, cnt, [])
  end.

(** mantissa * 10^e as a rational *)
Definition scale10 (m : N) (e : Z) : Q :=
  if (0 <=? e)%Z
  then inject_Z (Z.of_N m * 10 ^ e)
  else Qmake (Z.of_N m) (Z.to_pos (10 ^ (- e))).

(** ExponentPart, then the end of the literal *)
Definition exponent_part (s : list ascii) : option Z :=
  match s with
  | [] => Some 0%Z
  | c :: r =>
      if Ascii.eqb c "e" || Ascii.eqb c "E" then
        let '(neg, r') :=
          match r with
          | "+" :: t => (false, t)
          | "-" :: t => (true, t)
          | _ => (false, r)
          end in
        match take_digits 10 r' 0 0 with
        | (_, O, _) => None
        | (e, _, []) => Some (if neg then - Z.of_N e else Z.of_N e)%Z
        | _ => None
        end
      else None
  end.

(** StrUnsignedDecimalLiteral other than [Infinity] *)
Definition unsigned_decimal (s : list ascii) : option Q :=
  let '(ip, n1, r1) := take_digits 10 s 0 0 in
  let '(m, n2, r2) :=
    match r1 with
    | "." :: r => take_digits 10 r ip 0
    | _ => (ip, O, r1)
    end in
  match (n1 + n2)%nat with
  | O => None
  | _ =>
      match exponent_part r2 with
      | Some e => Some (scale10 m (e - Z.of_nat n2))
      | None => None
      end
  end.

Definition non_decimal (base : N) (s : list ascii) : number :=
  match take_digits base s 0 0 with
  | (_, O, _) => NaN
  | (v, _, []) => Fin (inject_Z (Z.of_N v))
  | _ => NaN
  end.

Definition of_option (o : option Q) : number :=
  match o with Some q => Fin q | None => NaN end.

Definition infinity : list ascii := list_ascii_of_string "Infinity".

Definition ascii_list_eqb (a b : list ascii) : bool :=
  String.eqb (string_of_list_ascii a) (string_of_list_ascii b).

Definition Number (s : string) : number :=
  match trim (list_ascii_of_string s) with
  | [] => zero
  | "0" :: "x" :: r | "0" :: "X" :: r => non_decimal 16 r
  | "0" :: "o" :: r | "0" :: "O" :: r => non_decimal 8 r
  | "0" :: "b" :: r | "0" :: "B" :: r => non_decimal 2 r
  | "+" :: r =>
      if ascii_list_eqb r infinity then PosInf
      else of_option (unsigned_decimal r)
  | "-" :: r =>
      if ascii_list_eqb r infinity then NegInf
      else of_option (option_map Qopp (unsigned_decimal r))
  | t =>
      if ascii_list_eqb t infinity then PosInf
      else of_option (unsigned_decimal t)
  end.

(** A JavaScript value as far as the sources inspect one. *)
Inductive value : Type :=
| VUndefined
| VNum (x : number)
| VStr (s : string).

(** [Number(v)] *)
Definition to_number (v : value) : number :=
  match v with
  | VUndefined => NaN
  | VNum x => x
  | VStr s => Number s
  end.

(** ToBoolean *)
Definition truthy (v : value) : bool :=
  match v with
  | VUndefined => false
  | VNum x => truthy_number x
  | VStr s => truthy_string s
  end.

(** [a ?? b] *)
Definition nullish {A} (a : option A) (b : A) : A :=
  match a with Some x => x | None => b end.

(** [s.includes(sub)] *)
Fixpoint includes (s sub : string) : bool :=
  String.prefix sub s
  || match s with
     | EmptyString => false
     | String _ r => includes r sub
     end.

End Js.

Notation "a ?? b" := (Js.nullish a b) (at level 45, left associativity).

(** ** Response envelopes *)

Module Http.

(** Modelled from the spec: the response helpers of
    [src/shared/handler/http.handler], which are not among the sources.
    Every response is an envelope with a correlation id, a human message,
    the request path and either a data payload or an error description;
    validation errors are 400, access-denied 403, not-found 404 and
    internal errors 500. *)
Record response (D : Type) : Type := mkResponse {
  code : Z;
  message : string;
  correlationId : string;
  description : option string;
  path : string;
  data : option D;
}.
Arguments mkResponse {D}.
Arguments code {D}.
Arguments message {D}.
Arguments correlationId {D}.
Arguments description {D}.
Arguments path {D}.
Arguments data {D}.

Section Helpers.
Context {D : Type}.

Definition responseBadRequest (msg cid desc pth : string) : response D :=
  mkResponse 400 msg cid (Some desc) pth None.

Definition responseForbidden (msg cid desc pth : string) : response D :=
  mkResponse 403 msg cid (Some desc) pth None.

Definition responseNotFound (msg cid desc pth : string) : response D :=
  mkResponse 404 msg cid (Some desc) pth None.

Definition responseInternalServerError (msg cid desc pth : string)
  : response D :=
  mkResponse 500 msg cid (Some desc) pth None.

Definition responseSuccess (cid : string) (d : D) (msg pth : string)
  : response D :=
  mkResponse 200 msg cid None pth (Some d).
End Helpers.

Definition is_bad_request {D} (r : response D) : Prop := code r = 400%Z.
Definition is_forbidden {D} (r : response D) : Prop := code r = 403%Z.
Definition is_not_found {D} (r : response D) : Prop := code r = 404%Z.
Definition is_internal_error {D} (r : response D) : Prop := code r = 500%Z.
Definition is_success {D} (r : response D) : Prop := code r = 200%Z.

End Http.

(** ** Calls to collaborators: outcomes and traces *)

Module Io.

(** What an awaited call produces: a value, or a thrown object of which
    the sources read at most [message]. *)
Inductive outcome (A : Type) : Type :=
| Returned (a : A)
| Thrown (message : option string).
Arguments Returned {A}.
Arguments Thrown {A}.

(** A computation that issues calls of type [E] and then returns or
    throws: the calls issued, in order, and the outcome. *)
Definition io (E A : Type) : Type := list E * outcome A.

Definition ret {E A} (a : A) : io E A := ([], Returned a).

Definition bind {E A B} (m : io E A) (f : A -> io E B) : io E B :=
  match m with
  | (t, Returned a) => let '(t', r) := f a in ((t ++ t')%list, r)
  | (t, Thrown e) => (t, Thrown e)
  end.

(** [await collaborator(...)]: the call is recorded, its outcome is [r] *)
Definition call {E A} (e : E) (r : outcome A) : io E A := ([e], r).

(** [try { m } catch (e) { h e }] *)
Definition try_catch {E A} (m : io E A) (h : option string -> io E A)
  : io E A :=
  match m with
  | (t, Thrown e) => let '(t', r) := h e in ((t ++ t')%list, r)
  | _ => m
  end.

Definition trace {E A} (m : io E A) : list E := fst m.
Definition result {E A} (m : io E A) : outcome A := snd m.

End Io.

Notation "'let*' x ':=' m 'in' k" := (Io.bind m (fun x => k))
  (at level 10, x name, m at level 100, k at level 200).

(** ** The exams controller *)

Module ExamsController.
Import Http Io.

(** *** Requests and DTOs *)

Record User := { sub : string }.

(** The parts of the express request the controller reads *)
Record Request := {
  x_correlation_id : option string;   (* req.header('x-correlation-id') *)
  originalUrl : string;               (* '' when absent *)
  url : string;
  user : option User;
}.

Record Distribution := {
  multiple_choice : option Js.number;
  true_false : option Js.number;
  open_analysis : option Js.number;
  open_exercise : option Js.number;
}.

Record CreateExamDto := {
  ce_subject : string;
  ce_difficulty : string;
  ce_attempts : Js.number;
  ce_totalQuestions : Js.number;
  ce_timeMinutes : Js.number;
  ce_reference : option string;
  ce_distribution : option Distribution;
}.

Record GenerateQuestionsDto := {
  gq_subject : string;
  gq_difficulty : string;
  gq_totalQuestions : Js.number;
  gq_reference : option string;
  gq_distribution : option Distribution;
}.

(** [new CreateExamCommand(...)], its arguments in order *)
Record CreateExamCommand := {
  cmd_subject : string;
  cmd_difficulty : string;
  cmd_attempts : Js.number;
  cmd_totalQuestions : Js.number;
  cmd_timeMinutes : Js.number;
  cmd_reference : option string;
  cmd_distribution : option Distribution;
}.

(** [new GenerateQuestionsCommand(...)], its arguments in order *)
Record GenerateQuestionsCommand := {
  gen_subject : string;
  gen_difficulty : string;
  gen_totalQuestions : Js.number;
  gen_reference : option string;
  gen_distribution : option Distribution;
}.

(** A generated question: the controller reads [type] only. *)
Record GeneratedQuestion := {
  type : string;
  rest : string;
}.

Record Grouped := {
  g_multiple_choice : list GeneratedQuestion;
  g_true_false : list GeneratedQuestion;
  g_open_analysis : list GeneratedQuestion;
  g_open_exercise : list GeneratedQuestion;
}.

(** *** Helpers of the file *)

Definition sumDistribution (d : option Distribution) : Js.number :=
  match d with
  | None => Js.zero
  | Some d =>
      Js.add (Js.add (Js.add (multiple_choice d ?? Js.zero)
                             (true_false d ?? Js.zero))
                     (open_analysis d ?? Js.zero))
             (open_exercise d ?? Js.zero)
  end.

(** [a || b] on strings *)
Definition or_string (a b : string) : string :=
  if Js.truthy_string a then a else b.

Definition pathOf (req : Request) : string :=
  or_string (or_string (originalUrl req) (url req)) "".

(** [q.type === k] *)
Definition has_type (k : string) (q : GeneratedQuestion) : bool :=
  String.eqb (type q) k.

(** [new CreateExamCommand(dto.subject, ..., dto.distribution ?? undefined)] *)
Definition createCmd_of (dto : CreateExamDto) : CreateExamCommand := {|
  cmd_subject := ce_subject dto;
  cmd_difficulty := ce_difficulty dto;
  cmd_attempts := ce_attempts dto;
  cmd_totalQuestions := ce_totalQuestions dto;
  cmd_timeMinutes := ce_timeMinutes dto;
  cmd_reference := ce_reference dto;
  cmd_distribution := ce_distribution dto;
|}.

(** [new GenerateQuestionsCommand(dto.subject, ..., dto.distribution ?? undefined)] *)
Definition genCmd_of (dto : GenerateQuestionsDto) : GenerateQuestionsCommand := {|
  gen_subject := gq_subject dto;
  gen_difficulty := gq_difficulty dto;
  gen_totalQuestions := gq_totalQuestions dto;
  gen_reference := gq_reference dto;
  gen_distribution := gq_distribution dto;
|}.

(** A rejection: no collaborator is called and a 400 envelope comes back *)
Definition rejected {E D} (m : io E (response D)) : Prop :=
  exists r, m = ([], Returned r) /\ is_bad_request r.

(** The calls [create], [generate] and [getExamById] can issue *)
Inductive Call : Type :=
| CreateExamExecute (cmd : CreateExamCommand)
| GenerateQuestionsExecute (cmd : GenerateQuestionsCommand)
| GetByIdExecute (examId teacherId : string).

(** [user?.sub] when it is truthy *)
Definition identity (req : Request) : option string :=
  match user req with
  | Some u => if Js.truthy_string (sub u) then Some (sub u) else None
  | None => None
  end.

Section Controller.

(** The entities the absent handlers return *)
Variables Exam ExamView : Type.

(** The injected collaborators: what each call answers *)
Variable createExamHandler_execute : CreateExamCommand -> outcome Exam.
Variable generateQuestionsHandler_execute :
  GenerateQuestionsCommand -> outcome (list GeneratedQuestion).
Variable getByIdUseCase_execute : string -> string -> outcome ExamView.

(** The identifier [randomUUID()] draws for the response *)
Variable randomUUID : string.

Definition cid (req : Request) : string :=
  x_correlation_id req ?? randomUUID.

(** [create(dto, req)]; the logger calls are left out *)
Definition create (dto : CreateExamDto) (req : Request)
  : io Call (response Exam) :=
  let sum := sumDistribution (ce_distribution dto) in
  if Js.le (ce_totalQuestions dto) Js.zero then
    ret (responseBadRequest "totalQuestions debe ser > 0." (cid req)
           "Error en validación" (pathOf req))
  else if Js.strict_neq sum (ce_totalQuestions dto) then
    ret (responseBadRequest
           "La suma de distribution debe ser igual a totalQuestions."
           (cid req) "Error en validación" (pathOf req))
  else
    let createCmd := createCmd_of dto in
    let* exam := call (CreateExamExecute createCmd)
                      (createExamHandler_execute createCmd) in
    ret (responseSuccess (cid req) exam "Exam created successfully"
           (pathOf req)).

Definition group (flat : list GeneratedQuestion) : Grouped := {|
  g_multiple_choice := List.filter (has_type "multiple_choice") flat;
  g_true_false := List.filter (has_type "true_false") flat;
  g_open_analysis := List.filter (has_type "open_analysis") flat;
  g_open_exercise := List.filter (has_type "open_exercise") flat;
|}.

(** [generate(dto, req)] *)
Definition generate (dto : GenerateQuestionsDto) (req : Request)
  : io Call (response Grouped) :=
  let sum := sumDistribution (gq_distribution dto) in
  if Js.le (gq_totalQuestions dto) Js.zero then
    ret (responseBadRequest "totalQuestions debe ser > 0." (cid req)
           "Error en validación" (pathOf req))
  else if Js.strict_neq sum (gq_totalQuestions dto) then
    ret (responseBadRequest
           "La suma de distribution debe ser igual a totalQuestions."
           (cid req) "Error en validación" (pathOf req))
  else
    let genCmd := genCmd_of dto in
    let* flat := call (GenerateQuestionsExecute genCmd)
                      (generateQuestionsHandler_execute genCmd) in
    let grouped := group flat in
    ret (responseSuccess (cid req) grouped
           "Questions generated successfully" (pathOf req)).

(** The [catch] block of [getExamById] *)
Definition classify (req : Request) (e : option string)
  : response ExamView :=
  let msg := e ?? "" in
  if Js.includes msg "Acceso no autorizado" then
    responseForbidden "Acceso no autorizado" (cid req) msg (pathOf req)
  else if Js.includes msg "Examen no encontrado" then
    responseNotFound "Examen no encontrado" (cid req) msg (pathOf req)
  else
    responseInternalServerError "Error interno" (cid req)
      (or_string msg "Error obteniendo examen") (pathOf req).

(** [getExamById(examId, req)] *)
Definition getExamById (examId : string) (req : Request)
  : io Call (response ExamView) :=
  match identity req with
  | None =>
      ret (responseForbidden "Acceso no autorizado" (cid req)
             "Falta token" (pathOf req))
  | Some teacherId =>
      try_catch
        (let* data := call (GetByIdExecute examId teacherId)
                           (getByIdUseCase_execute examId teacherId) in
         ret (responseSuccess (cid req) data "Examen recuperado"
                (pathOf req)))
        (fun e => ret (classify req e))
  end.

End Controller.

(** The bucket of the response stored under [key]: there are four *)
Definition bucket (g : Grouped) (key : string) : option (list GeneratedQuestion) :=
  if String.eqb key "multiple_choice" then Some (g_multiple_choice g)
  else if String.eqb key "true_false" then Some (g_true_false g)
  else if String.eqb key "open_analysis" then Some (g_open_analysis g)
  else if String.eqb key "open_exercise" then Some (g_open_exercise g)
  else None.

Definition kinds : list string :=
  ["multiple_choice"; "true_false"; "open_analysis"; "open_exercise"].

(** *** The get-by-id use case *)

Record StoredExam := {
  se_id : string;
  se_teacherId : string;
  se_title : string;
}.

(** Modelled from the spec: [GetExamByIdUseCase.execute], which is not
    among the sources.  Get-by-id fails with an access-denied condition
    if the exam exists but belongs to a different teacher, and with a
    not-found condition if no exam with that id exists at all; the two
    conditions carry the messages the controller looks for. *)
Definition getByIdUseCase_spec (exams : list StoredExam)
           (examId teacherId : string) : outcome StoredExam :=
  match List.find (fun e => String.eqb (se_id e) examId) exams with
  | None => Thrown (Some "Examen no encontrado")
  | Some e =>
      if String.eqb (se_teacherId e) teacherId then Returned e
      else Thrown (Some "Acceso no autorizado")
  end.

(** *** Quick-save *)

(** An element of [body.questions]; every field may be missing, and a
    [null] element reads as all fields missing ([q?.]).  Values are kept
    in the string form [String(...)] gives them. *)
Record RawQuestion := {
  rq_id : option string;
  rq_type : option string;
  rq_text : option string;
  rq_options : option (list string);   (* Some when Array.isArray *)
}.

(** [body.content] when it is an object *)
Record ContentObject := {
  co_questions : option (list RawQuestion);   (* Some when Array.isArray *)
  co_rest : string;
}.

(** The loosely shaped body; a missing body reads as all fields missing.
    [b_content] is [None] for anything but an object, [b_questions] for
    anything but an array. *)
Record QuickSaveBody := {
  b_title : option string;
  b_courseId : Js.value;
  b_teacherId : option string;
  b_questions : option (list RawQuestion);
  b_content : option ContentObject;
  b_subject : option string;
  b_difficulty : option string;
}.

Record Question := {
  q_id : string;
  q_type : string;
  q_text : string;
  q_options : option (list string);
}.

Inductive Content : Type :=
| Verbatim (c : ContentObject)
| Built (subject difficulty createdAt : string) (questions : list Question).

Record SavedExamData := {
  d_title : string;
  d_status : string;
  d_content : Content;
  d_courseId : Js.value;
  d_teacherId : option string;
}.

Record Course := {
  course_id : string;
  course_teacherId : option string;
  course_createdAt : Z;
}.

Record SavedExam := {
  saved_id : string;
  saved_title : string;
}.

Inductive DbCall : Type :=
| CourseFindFirst
| SavedExamCreate (data : SavedExamData).

(** [prisma.course.findFirst({ orderBy: { createdAt: 'asc' } })] over the
    rows of the table: a row with the least [createdAt], the earliest
    stored one among equals. *)
Fixpoint findFirst_createdAt_asc (rows : list Course) : option Course :=
  match rows with
  | [] => None
  | c :: r =>
      match findFirst_createdAt_asc r with
      | Some m =>
          if (course_createdAt m <? course_createdAt c)%Z
          then Some m else Some c
      | None => Some c
      end
  end.

(** ToBoolean of [string | undefined] *)
Definition truthy_opt (o : option string) : bool :=
  match o with Some s => Js.truthy_string s | None => false end.

(** The length of the longest member of [used] *)
Definition max_length (used : gset string) : nat :=
  set_fold (fun s n => Nat.max (String.length s) n) 0%nat used.

Section QuickSave.

(** The rows of the course table, and what [savedExam.create] answers *)
Variable courses : list Course.
Variable savedExam_create : SavedExamData -> outcome SavedExam.

(** [Date.now()], [new Date().toISOString()], [randomUUID()], and the
    successive values of [Math.random().toString(36).slice(2,6)] *)
Variable now : N.
Variable nowISO : string.
Variable randomUUID : string.
Variable suffix : nat -> string.

(** [while (used.has(id)) id = `${id}_${suffix}`], run for at most
    [fuel] iterations; [k] counts the random draws made so far. *)
Fixpoint rename_loop (fuel : nat) (used : gset string) (id : string)
         (k : nat) : option (string * nat) :=
  if decide (id ∈ used) then
    match fuel with
    | O => None
    | S fuel' =>
        rename_loop fuel' used (id ++ "_" ++ suffix k) (S k)
    end
  else Some (id, k).

(** The callback of [rawQuestions.map]: the question built for [q] at
    index [i], with the updated set of used ids and draw counter. *)
Definition normalize_one (used : gset string) (k : nat)
           (q : RawQuestion) (i : nat)
  : option (Question * gset string * nat) :=
  let t := rq_type q ?? "open_analysis" in
  let id0 := rq_id q ?? ("q_" ++ pretty now ++ "_" ++ t ++ "_" ++ pretty i) in
  match rename_loop (S (max_length used)) used id0 k with
  | Some (id, k') =>
      Some ({| q_id := id; q_type := t; q_text := rq_text q ?? "";
               q_options := rq_options q |},
            {[ id ]} ∪ used, k')
  | None => None
  end.

Fixpoint normalize_from (used : gset string) (k : nat)
         (qs : list RawQuestion) (i : nat) : option (list Question) :=
  match qs with
  | [] => Some []
  | q :: r =>
      match normalize_one used k q i with
      | Some (q', used', k') =>
          match normalize_from used' k' r (S i) with
          | Some r' => Some (q' :: r')
          | None => None
          end
      | None => None
      end
  end.

Definition rawQuestions (body : QuickSaveBody) : list RawQuestion :=
  match b_questions body with
  | Some qs => qs
  | None =>
      match b_content body with
      | Some c => co_questions c ?? []
      | None => []
      end
  end.

(** [quickSave(body, req)].  [Returned None] stands for a [while] loop
    that outlives its fuel; [quickSave_returns] shows it never
    happens. *)
Definition quickSave (body : QuickSaveBody) (req : Request)
  : io DbCall (option (response SavedExam)) :=
  let c := cid randomUUID req in
  let title := b_title body ?? "Examen" in
  let* resolved :=
    if negb (Js.truthy (b_courseId body)) then
      let* firstCourse :=
        call CourseFindFirst (Returned (findFirst_createdAt_asc courses)) in
      match firstCourse with
      | None => ret None
      | Some fc =>
          ret (Some (Js.VStr (course_id fc),
                     if negb (truthy_opt (b_teacherId body))
                        && truthy_opt (course_teacherId fc)
                     then course_teacherId fc
                     else b_teacherId body))
      end
    else ret (Some (b_courseId body, b_teacherId body)) in
  match resolved with
  | None =>
      ret (Some (responseBadRequest
        "No hay courseId y no existe ningún Curso en la base. Crea un curso o envía courseId."
        c "Bad Request" (pathOf req)))
  | Some (courseId, teacherId) =>
      match normalize_from ∅ 0 (rawQuestions body) 0 with
      | None => ret None
      | Some questions =>
          let content :=
            match b_content body with
            | Some co => Verbatim co
            | None =>
                Built (b_subject body ?? "Tema general")
                      (b_difficulty body ?? "medio") nowISO questions
            end in
          let data := {|
            d_title := title;
            d_status := "Guardado";
            d_content := content;
            d_courseId := courseId;
            d_teacherId :=
              if truthy_opt teacherId then teacherId else None;
          |} in
          let* saved := call (SavedExamCreate data) (savedExam_create data) in
          ret (Some (responseSuccess c
                       {| saved_id := saved_id saved;
                          saved_title := saved_title saved |}
                       "Quick exam saved" (pathOf req)))
      end
  end.

End QuickSave.

(** *** Exams of a course *)

Inductive ListCall : Type :=
| ListCourseExamsExecute (courseId teacherId : string).

Section CourseExams.

(** What [listCourseExams.execute] returns is not inspected *)
Variable ExamList : Type.
Variable listCourseExams_execute : string -> string -> outcome ExamList.
Variable randomUUID : string.

(** [byCourse(courseId, req)] *)
Definition byCourse (courseId : string) (req : Request)
  : io ListCall (response ExamList) :=
  match identity req with
  | None =>
      ret (responseForbidden "Acceso no autorizado" (cid randomUUID req)
             "Falta token" (pathOf req))
  | Some teacherId =>
      try_catch
        (let* data := call (ListCourseExamsExecute courseId teacherId)
                           (listCourseExams_execute courseId teacherId) in
         ret (responseSuccess (cid randomUUID req) data "Exámenes del curso"
                (pathOf req)))
        (fun e =>
           let msg := e ?? "Error listando exámenes" in
           ret (responseInternalServerError "Error interno"
                  (cid randomUUID req) msg (pathOf req)))
  end.

End CourseExams.

(** A distribution whose counts are the integers given, [None] standing
    for a missing field *)
Definition integer_counts (mc tf oa oe : option Z) : Distribution := {|
  multiple_choice := Js.of_Z <$> mc;
  true_false := Js.of_Z <$> tf;
  open_analysis := Js.of_Z <$> oa;
  open_exercise := Js.of_Z <$> oe;
|}.

(** Whether [q.type] is one of the four kinds *)
Definition known_kind (q : GeneratedQuestion) : bool :=
  existsb (String.eqb (type q)) kinds.

(** The base id of a raw question at index [i]: its own id, or the
    synthesized [`q_${ts}_${t}_${i}`] *)
Definition base_id (now : N) (q : RawQuestion) (i : nat) : string :=
  rq_id q ?? ("q_" ++ pretty now ++ "_" ++ (rq_type q ?? "open_analysis")
              ++ "_" ++ pretty i).

(** The base ids of a list of raw questions, from index [i] on *)
Fixpoint base_ids (now : N) (qs : list RawQuestion) (i : nat) : list string :=
  match qs with
  | [] => []
  | q :: r => base_id now q i :: base_ids now r (S i)
  end.

(** The data of the [savedExam.create] calls of a trace *)
Definition created_data (t : list DbCall) : list SavedExamData :=
  omap (fun c => match c with
                 | SavedExamCreate d => Some d
                 | CourseFindFirst => None
                 end) t.

(** The question ids a persisted content blob carries *)
Definition persisted_ids (c : Content) : list (option string) :=
  match c with
  | Verbatim co => map rq_id (co_questions co ?? [])
  | Built _ _ _ qs => map (fun q => Some (q_id q)) qs
  end.

End ExamsController.

(** ** The exam wizard (component [ExamForm]) *)

Module ExamForm.

(** The fields of the form, as the literal names passed to [onChange] *)
Inductive Field : Type :=
| subject | difficulty | attempts
| multipleChoice | trueFalse | analysis | openEnded
| timeMinutes | reference.

(** The component state [values].  Text fields hold strings;
    [timeMinutes] is the number [45] until the slider writes a string. *)
Record Values := {
  v_subject : string;
  v_difficulty : string;
  v_attempts : string;
  v_multipleChoice : string;
  v_trueFalse : string;
  v_analysis : string;
  v_openEnded : string;
  v_timeMinutes : Js.value;
  v_reference : string;
}.

(** [{ ...prev, timeMinutes: v }] *)
Definition set_timeMinutes (prev : Values) (v : Js.value) : Values :=
  {| v_subject := v_subject prev;
       v_difficulty := v_difficulty prev;
       v_attempts := v_attempts prev;
       v_multipleChoice := v_multipleChoice prev;
       v_trueFalse := v_trueFalse prev;
       v_analysis := v_analysis prev;
       v_openEnded := v_openEnded prev; v_timeMinutes := v;
       v_reference := v_reference prev |}.

(** [{ ...prev, [name]: v }] with a string [v] *)
Definition set_field (prev : Values) (name : Field) (v : string) : Values :=
  match name with
  | subject =>
    {| v_subject := v; v_difficulty := v_difficulty prev;
       v_attempts := v_attempts prev;
       v_multipleChoice := v_multipleChoice prev;
       v_trueFalse := v_trueFalse prev;
       v_analysis := v_analysis prev;
       v_openEnded := v_openEnded prev;
       v_timeMinutes := v_timeMinutes prev;
       v_reference := v_reference prev |}
  | difficulty =>
    {| v_subject := v_subject prev; v_difficulty := v;
       v_attempts := v_attempts prev;
       v_multipleChoice := v_multipleChoice prev;
       v_trueFalse := v_trueFalse prev;
       v_analysis := v_analysis prev;
       v_openEnded := v_openEnded prev;
       v_timeMinutes := v_timeMinutes prev;
       v_reference := v_reference prev |}
  | attempts =>
    {| v_subject := v_subject prev;
       v_difficulty := v_difficulty prev; v_attempts := v;
       v_multipleChoice := v_multipleChoice prev;
       v_trueFalse := v_trueFalse prev;
       v_analysis := v_analysis prev;
       v_openEnded := v_openEnded prev;
       v_timeMinutes := v_timeMinutes prev;
       v_reference := v_reference prev |}
  | multipleChoice =>
    {| v_subject := v_subject prev;
       v_difficulty := v_difficulty prev;
       v_attempts := v_attempts prev; v_multipleChoice := v;
       v_trueFalse := v_trueFalse prev;
       v_analysis := v_analysis prev;
       v_openEnded := v_openEnded prev;
       v_timeMinutes := v_timeMinutes prev;
       v_reference := v_reference prev |}
  | trueFalse =>
    {| v_subject := v_subject prev;
       v_difficulty := v_difficulty prev;
       v_attempts := v_attempts prev;
       v_multipleChoice := v_multipleChoice prev;
       v_trueFalse := v; v_analysis := v_analysis prev;
       v_openEnded := v_openEnded prev;
       v_timeMinutes := v_timeMinutes prev;
       v_reference := v_reference prev |}
  | analysis =>
    {| v_subject := v_subject prev;
       v_difficulty := v_difficulty prev;
       v_attempts := v_attempts prev;
       v_multipleChoice := v_multipleChoice prev;
       v_trueFalse := v_trueFalse prev; v_analysis := v;
       v_openEnded := v_openEnded prev;
       v_timeMinutes := v_timeMinutes prev;
       v_reference := v_reference prev |}
  | openEnded =>
    {| v_subject := v_subject prev;
       v_difficulty := v_difficulty prev;
       v_attempts := v_attempts prev;
       v_multipleChoice := v_multipleChoice prev;
       v_trueFalse := v_trueFalse prev;
       v_analysis := v_analysis prev; v_openEnded := v;
       v_timeMinutes := v_timeMinutes prev;
       v_reference := v_reference prev |}
  | timeMinutes => set_timeMinutes prev (Js.VStr v)
  | reference =>
    {| v_subject := v_subject prev;
       v_difficulty := v_difficulty prev;
       v_attempts := v_attempts prev;
       v_multipleChoice := v_multipleChoice prev;
       v_trueFalse := v_trueFalse prev;
       v_analysis := v_analysis prev;
       v_openEnded := v_openEnded prev;
       v_timeMinutes := v_timeMinutes prev; v_reference := v |}
  end.

(** [validateAttempts(value)]: the error message, [''] when valid *)
Definition validateAttempts (value : string) : string :=
  let num := Js.Number value in
  if String.eqb value "" || Js.isNaN num then
    "Debes ingresar un número de intentos."
  else if Js.lt num Js.one then
    "El número de intentos debe ser al menos 1."
  else if Js.gt num (Js.of_Z 3) then
    "El número de intentos no puede ser mayor a 3."
  else "".

(** [!errors.name] *)
Definition no_error (errors : gmap string string) (name : string) : bool :=
  match errors !! name with
  | Some e => negb (Js.truthy_string e)
  | None => true
  end.

(** [validStep()], from the state it closes over; [String(values.attempts)]
    is [values.attempts], which is a string already *)
Definition validStep (step : Z) (values : Values)
           (errors : gmap string string) (totalQuestions : Js.number)
  : bool :=
  if (step =? 0)%Z then
    let attemptsError := validateAttempts (v_attempts values) in
    (Js.truthy_string (v_subject values)
     && Js.truthy_string (v_difficulty values)
     && Js.truthy_string (v_attempts values))
    && negb (Js.truthy_string attemptsError)
  else if (step =? 1)%Z then Js.gt totalQuestions Js.zero
  else if (step =? 2)%Z then
    Js.truthy (v_timeMinutes values) && no_error errors "timeMinutes"
  else
    Js.truthy (v_timeMinutes values) && no_error errors "timeMinutes".

(** [value.replace(/\s+/g, ' ').trimStart()], on ASCII white space *)
Fixpoint collapse_ws (s : list ascii) (in_ws : bool) : list ascii :=
  match s with
  | [] => []
  | c :: r =>
      if Js.is_ws c then
        if in_ws then collapse_ws r true
        else " "%char :: collapse_ws r true
      else c :: collapse_ws r false
  end.

Definition normalize_subject (value : string) : string :=
  string_of_list_ascii
    (Js.trim_start (collapse_ws (list_ascii_of_string value) false)).

(** Whether [s] has no white space other than single spaces, each after
    a character that is no space ([prev_space] tells whether a space comes
    just before [s]) *)
Fixpoint single_spaced (prev_space : bool) (s : list ascii) : bool :=
  match s with
  | [] => true
  | c :: r =>
      if Ascii.eqb c " " then negb prev_space && single_spaced true r
      else negb (Js.is_ws c) && single_spaced false r
  end.

(** *** The component as a transition system *)

Section Wizard.

(** The hook [useExamForm] is not among the sources: its state and the
    three functions the component takes from it are parameters. *)
Variable Hook : Type.
Variable setValue : Hook -> Field -> Js.value -> Hook.
Variable validate : Hook -> bool * gmap string string.
Variable getTotalQuestions : Hook -> Js.number.

(** The state one render closes over; [touched] and the toasts, which
    no handler reads, are left out. *)
Record State := {
  step : Z;
  values : Values;
  errors : gmap string string;
  sending : bool;
  hook : Hook;
}.

Definition totalQuestions (st : State) : Js.number :=
  getTotalQuestions (hook st).

Definition validStep_at (st : State) : bool :=
  validStep (step st) (values st) (errors st) (totalQuestions st).

Definition hasQuestions (st : State) : bool :=
  Js.gt (totalQuestions st) Js.zero.

(** [touchAndValidate()]: the state with the new errors, and [valid] *)
Definition touchAndValidate (st : State) : State * bool :=
  let '(valid, errs) := validate (hook st) in
  ({| step := step st; values := values st; errors := errs;
      sending := sending st; hook := hook st |}, valid).

(** The effect on [[step]]: entering step 2 resets the time to 45 *)
Definition step_effect (st : State) : State :=
  if (step st =? 2)%Z then
    {| step := step st;
       values := set_timeMinutes (values st) (Js.VNum (Js.of_Z 45));
       errors := errors st; sending := sending st;
       hook := setValue (hook st) timeMinutes (Js.VNum (Js.of_Z 45)) |}
  else st.

(** [setStep(f)], followed by the effect of the new step *)
Definition setStep (f : Z -> Z) (st : State) : State :=
  step_effect {| step := f (step st); values := values st;
                 errors := errors st; sending := sending st;
                 hook := hook st |}.

(** [onChange(name, value)]; [validate] is the one of this render and
    so reads the hook before [setValue] *)
Definition onChange (name : Field) (value : string) (st : State) : State :=
  let v := match name with
           | subject => normalize_subject value
           | _ => value
           end in
  let errs :=
    match name with
    | attempts => <["attempts" := validateAttempts value]> (errors st)
    | _ => snd (validate (hook st))
    end in
  {| step := step st; values := set_field (values st) name v;
     errors := errs; sending := sending st;
     hook := setValue (hook st) name (Js.VStr v) |}.

(** The [disabled] attribute of the button Limpiar *)
Definition limpiar_disabled (st : State) : bool :=
  let vs := values st in
  ((step st =? 0)%Z && negb (Js.truthy_string (v_subject vs))
   && negb (Js.truthy_string (v_difficulty vs))
   && negb (Js.truthy_string (v_attempts vs)))
  || ((step st =? 1)%Z && negb (Js.truthy_string (v_multipleChoice vs))
      && negb (Js.truthy_string (v_trueFalse vs))
      && negb (Js.truthy_string (v_analysis vs))
      && negb (Js.truthy_string (v_openEnded vs)))
  || ((step st =? 2)%Z && negb (Js.truthy (v_timeMinutes vs))
      && negb (Js.truthy_string (v_reference vs))).

Definition clear (names : list Field) (vs : Values) : Values :=
  fold_left (fun acc n => set_field acc n "") names vs.

Definition clear_hook (names : list Field) (h : Hook) : Hook :=
  fold_left (fun acc n => setValue acc n (Js.VStr "")) names h.

(** [onResetStep()] *)
Definition onResetStep (st : State) : State :=
  let errs := snd (validate (hook st)) in
  if (step st =? 0)%Z then
    {| step := step st;
       values := clear [subject; difficulty; attempts] (values st);
       errors := errs; sending := sending st;
       hook := clear_hook [subject; difficulty; attempts] (hook st) |}
  else if (step st =? 1)%Z then
    {| step := step st;
       values := clear [multipleChoice; trueFalse; analysis; openEnded]
                   (values st);
       errors := errs; sending := sending st;
       hook := clear_hook [multipleChoice; trueFalse; analysis; openEnded]
                 (hook st) |}
  else if (step st =? 2)%Z then
    {| step := step st;
       values := set_field
                   (set_timeMinutes (values st) (Js.VNum (Js.of_Z 45)))
                   reference "";
       errors := errs; sending := sending st;
       hook := setValue
                 (setValue (hook st) timeMinutes (Js.VNum (Js.of_Z 45)))
                 reference (Js.VStr "") |}
  else
    {| step := step st; values := values st; errors := errs;
       sending := sending st; hook := hook st |}.

(** [onSubmit(e)] up to the call of [createExam], which leaves
    [sending] set until it settles *)
Definition onSubmit (st : State) : State :=
  let '(st1, valid) := touchAndValidate st in
  if negb valid then st1
  else if (step st <? 2)%Z then setStep (fun s => s + 1)%Z st1
  else if negb (hasQuestions st) then st1
  else {| step := step st1; values := values st1; errors := errors st1;
          sending := true; hook := hook st1 |}.

Inductive Event : Type :=
| Change (name : Field) (value : string)
| ClickLimpiar
| ClickAnterior
| ClickSiguiente
| ClickGenerarIA
| Submit
| CreateExamSettled.

(** What each event does, given which buttons the render shows and
    enables *)
Definition handle (ev : Event) (st : State) : State :=
  match ev with
  | Change name value => onChange name value st
  | ClickLimpiar => if limpiar_disabled st then st else onResetStep st
  | ClickAnterior =>
      if (step st >? 0)%Z then setStep (fun s => s - 1)%Z st else st
  | ClickSiguiente =>
      if (step st <? 2)%Z && negb (sending st || negb (validStep_at st))
      then if validStep_at st then setStep (fun s => s + 1)%Z st else st
      else st
  | ClickGenerarIA => st
  | Submit => onSubmit st
  | CreateExamSettled =>
      {| step := step st; values := values st; errors := errors st;
         sending := false; hook := hook st |}
  end.

(** The states the component can be in: it mounts with [step] 0 *)
Inductive reachable : State -> Prop :=
| reachable_mount st : step st = 0%Z -> reachable st
| reachable_handle st ev : reachable st -> reachable (handle ev st).

(** Modelled from the spec: the hook's [validate()], which gates
    [onSubmit], is not among the sources; the spec has submission
    gated by the same [validStep()] check.  [submit_gated st] says so
    of the hook at [st]. *)
Definition submit_gated (st : State) : Prop :=
  fst (validate (hook st)) = true -> validStep_at st = true.

End Wizard.

(** *** Submission with its effects *)

(** What [createExam] resolves to, as far as [onSubmit] reads it:
    [res?.ok] and [res?.error] *)
Record CreateResult := {
  ok : bool;
  error : option string;
}.

(** The calls [onSubmit] issues; [V] is the type of [snap.values] *)
Inductive FormCall (V : Type) : Type :=
| CreateExam (values : V)
| Toast (msg kind : string).
Arguments CreateExam {V}.
Arguments Toast {V}.

Section Submission.

Variable Hook : Type.
Variable setValue : Hook -> Field -> Js.value -> Hook.
Variable validate : Hook -> bool * gmap string string.
Variable getTotalQuestions : Hook -> Js.number.

(** [getSnapshot().values] of the hook, and what [createExam] answers *)
Variable V : Type.
Variable snapshot_values : Hook -> V.
Variable createExam : V -> Io.outcome (option CreateResult).

Definition onToast (msg kind : string) : Io.io (FormCall V) unit :=
  Io.call (Toast msg kind) (Io.Returned tt).

(** [res?.error || 'Error desconocido.'] *)
Definition error_text (res : option CreateResult) : string :=
  match res with
  | Some r =>
      match error r with
      | Some e => if Js.truthy_string e then e else "Error desconocido."
      | None => "Error desconocido."
      end
  | None => "Error desconocido."
  end.

(** [res?.ok] *)
Definition is_ok (res : option CreateResult) : bool :=
  match res with Some r => ok r | None => false end.

(** [onSubmit(e)] with the toasts and the call of [createExam]; the state
    is the one left when the handler has finished *)
Definition onSubmit_io (st : State Hook) : Io.io (FormCall V) (State Hook) :=
  let '(st1, valid) := touchAndValidate Hook validate st in
  if negb valid then Io.ret st1
  else if (step Hook st <? 2)%Z then
    Io.ret (setStep Hook setValue (fun s => s + 1)%Z st1)
  else if negb (hasQuestions Hook getTotalQuestions st) then
    let* _ := onToast "Debes escoger al menos una pregunta de algún tipo."
                "warn" in
    Io.ret st1
  else
    let* _ :=
      Io.try_catch
        (let* res := Io.call (CreateExam (snapshot_values (hook Hook st1)))
                             (createExam (snapshot_values (hook Hook st1))) in
         if is_ok res then onToast "Examen creado correctamente." "info"
         else onToast (error_text res) "error")
        (fun _ => onToast "No fue posible conectar con el servidor." "error") in
    Io.ret {| step := step Hook st1; values := values Hook st1;
              errors := errors Hook st1; sending := false;
              hook := hook Hook st1 |}.

(** The [createExam] calls of a trace *)
Definition createExam_calls (t : list (FormCall V)) : list V :=
  omap (fun c => match c with CreateExam v => Some v | Toast _ _ => None end) t.

(** The toasts of a trace *)
Definition toasts (t : list (FormCall V)) : list (string * string) :=
  omap (fun c => match c with
                 | Toast m k => Some (m, k)
                 | CreateExam _ => None
                 end) t.

End Submission.

End ExamForm.

(** ** The exam creation page (component [ExamsCreatePage]) *)

Module ExamCreatePage.

(** [GeneratedQuestion['type']], the union of the four kinds *)
Inductive Kind : Type :=
| multiple_choice | true_false | open_analysis | open_exercise.

Definition Kind_eqb (a b : Kind) : bool :=
  match a, b with
  | multiple_choice, multiple_choice | true_false, true_false
  | open_analysis, open_analysis | open_exercise, open_exercise => true
  | _, _ => false
  end.

Record Distribution := {
  d_multiple_choice : Js.number;
  d_true_false : Js.number;
  d_open_analysis : Js.number;
  d_open_exercise : Js.number;
}.

(** The request [buildAiInputFromForm] returns *)
Record AiInput := {
  subject : Js.value;
  difficulty : string;
  totalQuestions : Js.number;
  reference : Js.value;
  distribution : Distribution;
  language : string;
}.

(** [raw.key], [undefined] when the key is missing *)
Definition get (raw : gmap string Js.value) (key : string) : Js.value :=
  default Js.VUndefined (raw !! key).

(** [v ?? d] on a value *)
Definition or_else (v d : Js.value) : Js.value :=
  match v with Js.VUndefined => d | _ => v end.

(** [Number(v ?? 0) || 0] *)
Definition count (v : Js.value) : Js.number :=
  let n := Js.to_number (or_else v (Js.VNum Js.zero)) in
  if Js.truthy_number n then n else Js.zero.

(** The own keys of [difficultyMap] *)
Definition difficultyMap : gmap string string :=
  list_to_map
    [("facil", "fácil"); ("fácil", "fácil"); ("easy", "fácil");
     ("medio", "medio"); ("media", "medio"); ("medium", "medio");
     ("dificil", "difícil"); ("difícil", "difícil"); ("hard", "difícil")].

Section Page.

(** [String(v)] and [s.toLowerCase()] of the language, taken as given *)
Variable String_of : Js.value -> string.
Variable toLowerCase : string -> string.

(** [buildAiInputFromForm(raw)] *)
Definition buildAiInputFromForm (raw : gmap string Js.value) : AiInput :=
  let difficultyKey :=
    toLowerCase (String_of (or_else (get raw "difficulty") (Js.VStr "medio"))) in
  let difficulty := difficultyMap !! difficultyKey ?? "medio" in
  let distribution := {|
    d_multiple_choice := count (get raw "multipleChoice");
    d_true_false := count (get raw "trueFalse");
    d_open_analysis := count (get raw "analysis");
    d_open_exercise := count (get raw "openEnded");
  |} in
  let totalQuestions :=
    Js.add (Js.add (Js.add (d_multiple_choice distribution)
                           (d_true_false distribution))
                   (d_open_analysis distribution))
           (d_open_exercise distribution) in
  {| subject := or_else (or_else (get raw "subject") (get raw "topic"))
                  (Js.VStr "Tema general");
     difficulty := difficulty;
     totalQuestions := totalQuestions;
     reference := or_else (get raw "reference") (Js.VStr "");
     distribution := distribution;
     language := "es" |}.

(** [q.type === k ? 1 : 0] *)
Definition one_if (b : bool) : Js.number := if b then Js.one else Js.zero.

(** The request [oneDto] of [onRegenerateOne(q)], from the form
    snapshot [data] and [q.type] *)
Definition oneDto (data : gmap string Js.value) (q_type : Kind) : AiInput :=
  let base := buildAiInputFromForm data in
  {| subject := subject base;
     difficulty := difficulty base;
     totalQuestions := Js.one;
     reference := reference base;
     distribution := {|
       d_multiple_choice := one_if (Kind_eqb q_type multiple_choice);
       d_true_false := one_if (Kind_eqb q_type true_false);
       d_open_analysis := one_if (Kind_eqb q_type open_analysis);
       d_open_exercise := one_if (Kind_eqb q_type open_exercise);
     |};
     language := language base |}.

End Page.

(** A number as JSON carries it: [NaN] and the infinities become [null] *)
Definition json_number (x : Js.number) : option Js.number :=
  match x with Js.Fin _ => Some x | _ => None end.

(** The [distribution] the backend receives *)
Definition wire (d : Distribution) : ExamsController.Distribution := {|
  ExamsController.multiple_choice := json_number (d_multiple_choice d);
  ExamsController.true_false := json_number (d_true_false d);
  ExamsController.open_analysis := json_number (d_open_analysis d);
  ExamsController.open_exercise := json_number (d_open_exercise d);
|}.

Definition count_of (d : Distribution) (k : Kind) : Js.number :=
  match k with
  | multiple_choice => d_multiple_choice d
  | true_false => d_true_false d
  | open_analysis => d_open_analysis d
  | open_exercise => d_open_exercise d
  end.

(** *** The handlers of the AI panel *)

(** [aiMeta] *)
Record Meta := {
  m_subject : Js.value;
  m_difficulty : Js.value;
  m_reference : Js.value;
}.

(** The page state the handlers write; [Q] is [GeneratedQuestion] *)
Record PageState (Q : Type) : Type := {
  aiOpen : bool;
  aiLoading : bool;
  aiError : option string;
  aiQuestions : list Q;
  aiMeta : Meta;
}.
Arguments aiOpen {Q}.
Arguments aiLoading {Q}.
Arguments aiError {Q}.
Arguments aiQuestions {Q}.
Arguments aiMeta {Q}.

Inductive PageCall : Type :=
| GenerateQuestions (dto : AiInput)
| PushToast (msg kind : string).

(** The [generateQuestions] requests of a trace *)
Definition requests (t : list PageCall) : list AiInput :=
  omap (fun c => match c with
                 | GenerateQuestions d => Some d
                 | PushToast _ _ => None
                 end) t.

Section Handlers.

Variable String_of : Js.value -> string.
Variable toLowerCase : string -> string.

(** The service and the helpers of [ai-utils], which are not among the
    sources *)
Variables Q Res : Type.
Variable generateQuestions : AiInput -> Io.outcome Res.
Variable normalizeToQuestions : Res -> list Q.
Variable cloneQuestion : Q -> Q.

(** [snap?.values?.subject ? snap.values : draft], from [snap?.values] and
    the draft read from local storage *)
Definition form_data (snap_values draft : option (gmap string Js.value))
  : option (gmap string Js.value) :=
  match snap_values with
  | Some v => if Js.truthy (get v "subject") then Some v else draft
  | None => draft
  end.

(** [handleAIPropose()]; the scroll to the top is left out *)
Definition handleAIPropose (snap_values draft : option (gmap string Js.value))
           (st : PageState Q) : Io.io PageCall (PageState Q) :=
  match form_data snap_values draft with
  | None =>
      let* _ := Io.call (PushToast "Completa y guarda el formulario primero."
                           "warn") (Io.Returned tt) in
      Io.ret st
  | Some data =>
      let meta := {|
        m_subject := or_else (get data "subject") (Js.VStr "Tema general");
        m_difficulty := or_else (get data "difficulty") (Js.VStr "medio");
        m_reference := or_else (get data "reference") (Js.VStr "");
      |} in
      let dto := buildAiInputFromForm String_of toLowerCase data in
      if Js.le (totalQuestions dto) Js.zero then
        Io.ret {| aiOpen := true; aiLoading := aiLoading st;
                  aiError :=
                    Some "La suma de la distribución debe ser al menos 1.";
                  aiQuestions := []; aiMeta := meta |}
      else
        let* after :=
          Io.try_catch
            (let* res := Io.call (GenerateQuestions dto)
                                 (generateQuestions dto) in
             let list := map cloneQuestion (normalizeToQuestions res) in
             Io.ret (list,
                     match list with
                     | [] => Some "No se generaron preguntas. Revisa el backend y/o el DTO."
                     | _ => None
                     end))
            (fun _ => Io.ret (aiQuestions st,
                              Some "Error inesperado generando preguntas.")) in
        Io.ret {| aiOpen := true; aiLoading := false;
                  aiError := snd after; aiQuestions := fst after;
                  aiMeta := meta |}
  end.

(** [onRegenerateAll()] *)
Definition onRegenerateAll (snap_values : option (gmap string Js.value))
           (st : PageState Q) : Io.io PageCall (PageState Q) :=
  let data := snap_values ?? ∅ in
  let dto := buildAiInputFromForm String_of toLowerCase data in
  let* after :=
    Io.try_catch
      (let* res := Io.call (GenerateQuestions dto) (generateQuestions dto) in
       Io.ret (map cloneQuestion (normalizeToQuestions res), None))
      (fun _ => Io.ret (aiQuestions st,
                        Some "No se pudo regenerar el set completo.")) in
  Io.ret {| aiOpen := aiOpen st; aiLoading := false;
            aiError := snd after; aiQuestions := fst after;
            aiMeta := aiMeta st |}.

End Handlers.

End ExamCreatePage.

(** ** Sample requests *)

Module Samples.
Import Io ExamsController.

Definition teacher_b : Request := {|
  x_correlation_id := Some "c-1";
  originalUrl := "/api/exams";
  url := "/api/exams";
  user := Some {| sub := "teacher-b" |};
|}.

Definition anonymous : Request := {|
  x_correlation_id := None;
  originalUrl := "/api/exams/e1";
  url := "/api/exams/e1";
  user := None;
|}.

Definition counts (mc tf oa oe : Z) : Distribution := {|
  multiple_choice := Some (Js.of_Z mc);
  true_false := Some (Js.of_Z tf);
  open_analysis := Some (Js.of_Z oa);
  open_exercise := Some (Js.of_Z oe);
|}.

Definition create_dto (total : Z) (d : option Distribution) : CreateExamDto := {|
  ce_subject := "Algebra";
  ce_difficulty := "medio";
  ce_attempts := Js.of_Z 2;
  ce_totalQuestions := Js.of_Z total;
  ce_timeMinutes := Js.of_Z 45;
  ce_reference := None;
  ce_distribution := d;
|}.

Definition generate_dto (total : Z) (d : option Distribution)
  : GenerateQuestionsDto := {|
  gq_subject := "Algebra";
  gq_difficulty := "medio";
  gq_totalQuestions := Js.of_Z total;
  gq_reference := None;
  gq_distribution := d;
|}.

Definition created (cmd : CreateExamCommand) : outcome string :=
  Returned "exam-1".

Definition flat : list GeneratedQuestion :=
  [ {| type := "true_false"; rest := "q1" |};
    {| type := "multiple_choice"; rest := "q2" |};
    {| type := "true_false"; rest := "q3" |};
    {| type := "open_exercise"; rest := "q4" |};
    {| type := "open_analysis"; rest := "q5" |} ].

Definition generated (cmd : GenerateQuestionsCommand)
  : outcome (list GeneratedQuestion) := Returned flat.

Definition exams : list StoredExam :=
  [ {| se_id := "e1"; se_teacherId := "teacher-a"; se_title := "Parcial" |} ].

Definition course_table : list Course :=
  [ {| course_id := "c2"; course_teacherId := Some "teacher-b";
       course_createdAt := 200 |};
    {| course_id := "c1"; course_teacherId := Some "teacher-a";
       course_createdAt := 100 |} ].

Definition saved (d : SavedExamData) : outcome SavedExam :=
  Returned {| saved_id := "s-1"; saved_title := d_title d |}.

Definition suffix (k : nat) : string := "k3f9".

Definition question_a : RawQuestion := {|
  rq_id := Some "a"; rq_type := Some "true_false";
  rq_text := Some "2 + 2 = 4"; rq_options := None;
|}.

(** [{ courseId: 'c1', content: { questions: [{id:'a',...}, {id:'a',...}] } }] *)
Definition body_with_content : QuickSaveBody := {|
  b_title := None;
  b_courseId := Js.VStr "c1";
  b_teacherId := None;
  b_questions := None;
  b_content := Some {| co_questions := Some [question_a; question_a];
                       co_rest := "" |};
  b_subject := None;
  b_difficulty := None;
|}.

(** [{ questions: [{id:'a',...}, {id:'a',...}] }] *)
Definition body_without_course : QuickSaveBody := {|
  b_title := None;
  b_courseId := Js.VUndefined;
  b_teacherId := None;
  b_questions := Some [question_a; question_a];
  b_content := None;
  b_subject := None;
  b_difficulty := None;
|}.

(** A hook that mirrors the form values, to run the wizard *)
Definition hook_setValue (h : ExamForm.Values) (name : ExamForm.Field)
           (v : Js.value) : ExamForm.Values :=
  match v with
  | Js.VStr s => ExamForm.set_field h name s
  | _ => ExamForm.set_timeMinutes h v
  end.

Definition hook_total (h : ExamForm.Values) : Js.number :=
  Js.add (Js.add (Js.add (Js.Number (ExamForm.v_multipleChoice h))
                         (Js.Number (ExamForm.v_trueFalse h)))
                 (Js.Number (ExamForm.v_analysis h)))
         (Js.Number (ExamForm.v_openEnded h)).

Definition hook_validate (h : ExamForm.Values) : bool * gmap string string :=
  (ExamForm.validStep 0 h ∅ (hook_total h), ∅).

Definition general_data : ExamForm.Values := {|
  ExamForm.v_subject := "Algebra";
  ExamForm.v_difficulty := "medio";
  ExamForm.v_attempts := "2";
  ExamForm.v_multipleChoice := "";
  ExamForm.v_trueFalse := "";
  ExamForm.v_analysis := "";
  ExamForm.v_openEnded := "";
  ExamForm.v_timeMinutes := Js.VNum (Js.of_Z 45);
  ExamForm.v_reference := "";
|}.

Definition at_step_0 : ExamForm.State ExamForm.Values := {|
  ExamForm.step := 0;
  ExamForm.values := general_data;
  ExamForm.errors := ∅;
  ExamForm.sending := false;
  ExamForm.hook := general_data;
|}.

(** [String(v)] and [s.toLowerCase()] as far as the samples need them:
    on strings, which the samples keep in lower case *)
Definition String_of (v : Js.value) : string :=
  match v with
  | Js.VStr s => s
  | Js.VUndefined => "undefined"
  | Js.VNum _ => "0"
  end.

Definition toLowerCase (s : string) : string := s.

(** The form snapshot [{ multipleChoice: '-3', trueFalse: '5' }] *)
Definition raw_negative : gmap string Js.value :=
  <["multipleChoice" := Js.VStr "-3"]> (<["trueFalse" := Js.VStr "5"]> ∅).

(** A use case that refuses the caller *)
Definition refused (courseId teacherId : string) : outcome (list string) :=
  Thrown (Some "Acceso no autorizado").

Definition question_b : RawQuestion := {|
  rq_id := Some "b"; rq_type := None; rq_text := None; rq_options := None;
|}.

Definition question_without_id : RawQuestion := {|
  rq_id := None; rq_type := None; rq_text := None; rq_options := None;
|}.

(** The wizard at step 1 with two multiple-choice questions asked for,
    and at step 2 *)
Definition counts_data : ExamForm.Values :=
  ExamForm.set_field general_data ExamForm.multipleChoice "2".

Definition at_step_1 : ExamForm.State ExamForm.Values := {|
  ExamForm.step := 1;
  ExamForm.values := counts_data;
  ExamForm.errors := ∅;
  ExamForm.sending := false;
  ExamForm.hook := counts_data;
|}.

Definition at_step_2 : ExamForm.State ExamForm.Values := {|
  ExamForm.step := 2;
  ExamForm.values := counts_data;
  ExamForm.errors := ∅;
  ExamForm.sending := false;
  ExamForm.hook := counts_data;
|}.

Definition snapshot_values (h : ExamForm.Values) : ExamForm.Values := h.

Definition createExam_ok (v : ExamForm.Values)
  : outcome (option ExamForm.CreateResult) :=
  Returned (Some {| ExamForm.ok := true; ExamForm.error := None |}).

(** The form snapshot [{ subject: 'Algebra', multipleChoice: '2',
    trueFalse: '1' }] *)
Definition raw_form : gmap string Js.value :=
  <["subject" := Js.VStr "Algebra"]>
    (<["multipleChoice" := Js.VStr "2"]> (<["trueFalse" := Js.VStr "1"]> ∅)).

Definition panel_closed : ExamCreatePage.PageState string := {|
  ExamCreatePage.aiOpen := false;
  ExamCreatePage.aiLoading := false;
  ExamCreatePage.aiError := None;
  ExamCreatePage.aiQuestions := ["q0"];
  ExamCreatePage.aiMeta := {|
    ExamCreatePage.m_subject := Js.VStr "Tema general";
    ExamCreatePage.m_difficulty := Js.VStr "medio";
    ExamCreatePage.m_reference := Js.VStr "" |};
|}.

Definition service_ok (dto : ExamCreatePage.AiInput) : outcome (list string) :=
  Returned ["q1"; "q2"; "q3"].

Definition service_down (dto : ExamCreatePage.AiInput)
  : outcome (list string) := Thrown None.

Definition normalizeToQuestions (res : list string) : list string := res.

Definition cloneQuestion (q : string) : string := q.

End Samples.

(** * Properties *)

Import Http Io.

(** ** Facts about JavaScript numbers *)

Section JsFacts.
Import Js.

Lemma strict_eq_sym x y : strict_eq x y = strict_eq y x.
Proof.
  destruct x as [| | |a], y as [| | |b]; simpl; try reflexivity.
  destruct (Qeq_bool a b) eqn:E1, (Qeq_bool b a) eqn:E2; try reflexivity.
  - apply Qeq_bool_iff in E1. symmetry in E1. apply Qeq_bool_iff in E1.
    congruence.
  - apply Qeq_bool_iff in E2. symmetry in E2. apply Qeq_bool_iff in E2.
    congruence.
Qed.

Lemma strict_eq_refl_Fin q : strict_eq (Fin q) (Fin q) = true.
Proof. simpl. apply Qeq_bool_iff. reflexivity. Qed.

Lemma le_false_neq_zero x :
  le x zero = false -> strict_neq zero x = true.
Proof.
  unfold le, strict_neq. intros H.
  apply orb_false_elim in H as [_ H].
  rewrite strict_eq_sym, H. reflexivity.
Qed.

End JsFacts.

(** ** Validation in [create] and [generate] *)

Section Validation.
Import ExamsController.

Variable Exam : Type.
Variable createExamHandler_execute : CreateExamCommand -> outcome Exam.
Variable generateQuestionsHandler_execute :
  GenerateQuestionsCommand -> outcome (list GeneratedQuestion).
Variable randomUUID : string.


Lemma create_total_nonpositive dto req :
  Js.le (ce_totalQuestions dto) Js.zero = true ->
  rejected (create Exam createExamHandler_execute randomUUID dto req).
Proof.
  intros H. unfold create. rewrite H.
  eexists. split; reflexivity.
Qed.

Lemma generate_total_nonpositive dto req :
  Js.le (gq_totalQuestions dto) Js.zero = true ->
  rejected (generate generateQuestionsHandler_execute randomUUID dto req).
Proof.
  intros H. unfold generate. rewrite H.
  eexists. split; reflexivity.
Qed.

Lemma create_sum_mismatch dto req :
  Js.strict_neq (sumDistribution (ce_distribution dto))
                (ce_totalQuestions dto) = true ->
  rejected (create Exam createExamHandler_execute randomUUID dto req).
Proof.
  intros H. unfold create.
  destruct (Js.le _ _); [|rewrite H]; eexists; split; reflexivity.
Qed.

Lemma generate_sum_mismatch dto req :
  Js.strict_neq (sumDistribution (gq_distribution dto))
                (gq_totalQuestions dto) = true ->
  rejected (generate generateQuestionsHandler_execute randomUUID dto req).
Proof.
  intros H. unfold generate.
  destruct (Js.le _ _); [|rewrite H]; eexists; split; reflexivity.
Qed.

(** When both guards pass, the handler is called once, with the command
    built from the request, and what it returns is sent back *)
Lemma create_accepted dto req exam :
  Js.le (ce_totalQuestions dto) Js.zero = false ->
  Js.strict_neq (sumDistribution (ce_distribution dto))
                (ce_totalQuestions dto) = false ->
  createExamHandler_execute (createCmd_of dto) = Returned exam ->
  exists r,
    create Exam createExamHandler_execute randomUUID dto req
    = ([CreateExamExecute (createCmd_of dto)], Returned r)
    /\ is_success r /\ data r = Some exam.
Proof.
  intros Hpos Hsum Hexec. unfold create. rewrite Hpos, Hsum. simpl.
  rewrite Hexec. eexists. repeat split.
Qed.


(** C2. For every create-exam request and every generate-questions
    request with [totalQuestions <= 0], the controller returns a
    bad-request envelope without calling the handler, whatever the
    distribution is. *)
Theorem nonpositive_total_is_rejected :
  (forall dto req,
      Js.le (ce_totalQuestions dto) Js.zero = true ->
      rejected (create Exam createExamHandler_execute randomUUID dto req))
  /\ (forall dto req,
      Js.le (gq_totalQuestions dto) Js.zero = true ->
      rejected (generate generateQuestionsHandler_execute randomUUID dto req)).
Proof.
  split; [apply create_total_nonpositive | apply generate_total_nonpositive].
Qed.

(** C3 (the code departs from the claim). A create-exam request that
    supplies no distribution is rejected whatever its [totalQuestions]:
    the sum of a missing distribution is 0, which a positive total never
    equals, so the create handler is never reached. *)
Theorem create_without_distribution_is_rejected :
  forall dto req,
    ce_distribution dto = None ->
    rejected (create Exam createExamHandler_execute randomUUID dto req).
Proof.
  intros dto req Hd.
  destruct (Js.le (ce_totalQuestions dto) Js.zero) eqn:Hle.
  - now apply create_total_nonpositive.
  - apply create_sum_mismatch. rewrite Hd. simpl.
    now apply le_false_neq_zero.
Qed.

End Validation.

(** ** Error classification in [getExamById] *)

Section GetById.
Import ExamsController.

Variable ExamView : Type.
Variable randomUUID : string.

Lemma getExamById_no_identity uc examId req :
  identity req = None ->
  exists r, getExamById ExamView uc randomUUID examId req = ([], Returned r)
            /\ is_forbidden r.
Proof.
  intros H. unfold getExamById. rewrite H. eexists. split; reflexivity.
Qed.

Lemma getExamById_thrown uc examId req teacherId e :
  identity req = Some teacherId ->
  uc examId teacherId = Thrown e ->
  getExamById ExamView uc randomUUID examId req
  = ([GetByIdExecute examId teacherId],
     Returned (classify ExamView randomUUID req e)).
Proof.
  intros H1 H2. unfold getExamById. rewrite H1. simpl. rewrite H2.
  reflexivity.
Qed.

Lemma getExamById_returned uc examId req teacherId d :
  identity req = Some teacherId ->
  uc examId teacherId = Returned d ->
  exists r, getExamById ExamView uc randomUUID examId req
            = ([GetByIdExecute examId teacherId], Returned r)
            /\ is_success r /\ data r = Some d.
Proof.
  intros H1 H2. unfold getExamById. rewrite H1. simpl. rewrite H2.
  eexists. repeat split.
Qed.

Lemma classify_code req e :
  code (classify ExamView randomUUID req e)
  = if Js.includes (e ?? "") "Acceso no autorizado" then 403%Z
    else if Js.includes (e ?? "") "Examen no encontrado" then 404%Z
    else 500%Z.
Proof.
  unfold classify.
  destruct (Js.includes _ "Acceso no autorizado"); [reflexivity|].
  destruct (Js.includes _ "Examen no encontrado"); reflexivity.
Qed.

End GetById.

(** C4. Get-exam-by-id: a request without caller identity is answered 403
    and the use case is not called; against the use case of the spec, an
    exam owned by another teacher is answered 403 and an absent exam 404,
    two different codes; and whatever the use case throws is classified by
    its message text, in this order: containing 'Acceso no autorizado'
    gives 403, else containing 'Examen no encontrado' gives 404, else
    500. *)
Theorem getExamById_outcomes :
  forall (uuid examId : string) (req : ExamsController.Request),
    (ExamsController.identity req = None ->
     forall V (uc : string -> string -> outcome V),
     exists r, ExamsController.getExamById V uc uuid examId req
               = ([], Returned r) /\ code r = 403%Z)
    /\ (forall exams teacherId e,
         ExamsController.identity req = Some teacherId ->
         List.find (fun x => String.eqb (ExamsController.se_id x) examId) exams
         = Some e ->
         ExamsController.se_teacherId e <> teacherId ->
         exists r,
           result (ExamsController.getExamById _
                     (ExamsController.getByIdUseCase_spec exams) uuid examId req)
           = Returned r /\ code r = 403%Z /\ data r = None)
    /\ (forall exams teacherId,
         ExamsController.identity req = Some teacherId ->
         List.find (fun x => String.eqb (ExamsController.se_id x) examId) exams
         = None ->
         exists r,
           result (ExamsController.getExamById _
                     (ExamsController.getByIdUseCase_spec exams) uuid examId req)
           = Returned r /\ code r = 404%Z /\ data r = None)
    /\ (forall V (uc : string -> string -> outcome V) teacherId m,
         ExamsController.identity req = Some teacherId ->
         uc examId teacherId = Thrown m ->
         exists r,
           result (ExamsController.getExamById V uc uuid examId req)
           = Returned r
           /\ code r
              = if Js.includes (m ?? "") "Acceso no autorizado" then 403%Z
                else if Js.includes (m ?? "") "Examen no encontrado" then 404%Z
                else 500%Z).
Proof.
  intros uuid examId req. repeat split.
  - intros H V uc.
    destruct (getExamById_no_identity V uuid uc examId req H) as (r & -> & Hr).
    now exists r.
  - intros exams teacherId e Hid Hfind Hne.
    assert (Hthrow : ExamsController.getByIdUseCase_spec exams examId teacherId
                     = Thrown (Some "Acceso no autorizado")).
    { unfold ExamsController.getByIdUseCase_spec. rewrite Hfind.
      destruct (String.eqb_spec (ExamsController.se_teacherId e) teacherId);
        [contradiction | reflexivity]. }
    rewrite (getExamById_thrown _ uuid _ examId req teacherId _ Hid Hthrow).
    eexists. split; [reflexivity|]. split; reflexivity.
  - intros exams teacherId Hid Hfind.
    assert (Hthrow : ExamsController.getByIdUseCase_spec exams examId teacherId
                     = Thrown (Some "Examen no encontrado")).
    { unfold ExamsController.getByIdUseCase_spec. now rewrite Hfind. }
    rewrite (getExamById_thrown _ uuid _ examId req teacherId _ Hid Hthrow).
    eexists. split; [reflexivity|]. split; reflexivity.
  - intros V uc teacherId m Hid Hthrow.
    erewrite getExamById_thrown; [| exact Hid | exact Hthrow].
    eexists. split; [reflexivity|]. apply classify_code.
Qed.

(** ** Grouping in [generate] *)

Section Grouping.
Import ExamsController.

Lemma filter_sublist {A} (p : A -> bool) (l : list A) :
  sublist (List.filter p l) l.
Proof.
  induction l as [|x l IH]; simpl.
  - constructor.
  - destruct (p x); now constructor.
Qed.

Lemma filter_Forall {A} (p : A -> bool) (l : list A) :
  Forall (fun x => p x = true) (List.filter p l).
Proof.
  induction l as [|x l IH]; simpl.
  - constructor.
  - destruct (p x) eqn:E; [constructor|]; assumption.
Qed.

(** [filter p l] is the largest sublist of [l] whose members satisfy [p] *)
Lemma filter_greatest {A} (p : A -> bool) (k l : list A) :
  sublist k l -> Forall (fun x => p x = true) k ->
  sublist k (List.filter p l).
Proof.
  induction 1 as [|x k l Hs IH|x k l Hs IH]; intros Hall; simpl.
  - constructor.
  - inversion Hall as [|? ? Hx Hk]; subst. rewrite Hx.
    constructor. now apply IH.
  - destruct (p x); [constructor|]; now apply IH.
Qed.

Lemma has_type_true k q : has_type k q = true <-> type q = k.
Proof. unfold has_type. apply String.eqb_eq. Qed.

Lemma bucket_is_filter flat key b :
  bucket (group flat) key = Some b -> b = List.filter (has_type key) flat.
Proof.
  unfold bucket.
  repeat match goal with
         | |- context [String.eqb key ?k] =>
             destruct (String.eqb_spec key k) as [->|_];
             [intros [= <-]; reflexivity|]
         end.
  intros [=].
Qed.

Lemma bucket_keys g key : is_Some (bucket g key) <-> key ∈ kinds.
Proof.
  unfold bucket, kinds. rewrite !elem_of_cons, elem_of_nil.
  repeat match goal with
         | |- context [String.eqb key ?k] =>
             destruct (String.eqb_spec key k) as [->|?]; [split; eauto|]
         end.
  split; [intros [? [=]] | intuition congruence].
Qed.

(** C5. When validation passes and the collaborator returns the flat
    sequence [flat], the response of generate-questions is a success
    whose payload has exactly four buckets, keyed [multiple_choice],
    [true_false], [open_analysis] and [open_exercise]; the bucket of a
    kind is a subsequence of [flat] (relative order kept), holds only
    questions of that kind, and contains every subsequence of [flat]
    made of questions of that kind (none is left out). *)
Theorem generate_groups_by_kind :
  forall (genH : GenerateQuestionsCommand -> outcome (list GeneratedQuestion))
         (uuid : string) dto req flat,
    Js.le (gq_totalQuestions dto) Js.zero = false ->
    Js.strict_neq (sumDistribution (gq_distribution dto))
                  (gq_totalQuestions dto) = false ->
    genH (genCmd_of dto) = Returned flat ->
    exists r g,
      generate genH uuid dto req
      = ([GenerateQuestionsExecute (genCmd_of dto)], Returned r)
      /\ is_success r /\ data r = Some g
      /\ (forall key, is_Some (bucket g key) <-> key ∈ kinds)
      /\ (forall key b, bucket g key = Some b ->
            sublist b flat
            /\ Forall (fun q => type q = key) b
            /\ (forall l, sublist l flat ->
                          Forall (fun q => type q = key) l ->
                          sublist l b)).
Proof.
  intros genH uuid dto req flat Hpos Hsum Hgen.
  exists (responseSuccess (cid uuid req) (group flat)
            "Questions generated successfully" (pathOf req)), (group flat).
  split; [|split; [reflexivity|split; [reflexivity|split]]].
  - unfold generate. rewrite Hpos, Hsum. simpl. rewrite Hgen. reflexivity.
  - apply bucket_keys.
  - intros key b Hb. apply bucket_is_filter in Hb as ->.
    split; [apply filter_sublist|split].
    + eapply Forall_impl; [apply filter_Forall|].
      intros q Hq. now apply has_type_true.
    + intros l Hl Hall. apply filter_greatest; [assumption|].
      eapply Forall_impl; [exact Hall|].
      intros q Hq. now apply has_type_true.
Qed.

End Grouping.

(** ** The wizard's validation *)

Section Attempts.
Import ExamForm.

Lemma truthy_string_true s : Js.truthy_string s = true <-> s <> "".
Proof. destruct s; simpl; split; congruence. Qed.

Lemma truthy_string_false s : Js.truthy_string s = false <-> s = "".
Proof. destruct s; simpl; split; congruence. Qed.

Lemma validateAttempts_accepted value :
  validateAttempts value = ""
  <-> exists q, Js.Number value = Js.Fin q /\ (1 <= q)%Q /\ (q <= 3)%Q.
Proof.
  unfold validateAttempts.
  destruct (String.eqb_spec value "") as [->|Hne]; simpl.
  - split; [discriminate|].
    intros (q & Hq & H1 & _). vm_compute in Hq. injection Hq as <-.
    now vm_compute in H1.
  - destruct (Js.Number value) as [| | |q]; simpl;
      try (split; [discriminate | intros (q' & [=] & _)]).
    unfold Js.gt. simpl.
    change (inject_Z 1) with 1%Q. change (inject_Z 3) with 3%Q.
    destruct (Qle_bool 1 q) eqn:E1; simpl.
    + destruct (Qle_bool q 3) eqn:E3; simpl.
      * split; [intros _|reflexivity].
        exists q. repeat split; now apply Qle_bool_iff.
      * split; [discriminate|].
        intros (q' & [= <-] & _ & H3). apply Qle_bool_iff in H3. congruence.
    + split; [discriminate|].
      intros (q' & [= <-] & H1 & _). apply Qle_bool_iff in H1. congruence.
Qed.

Lemma validStep_0 values errors total :
  validStep 0 values errors total = true
  <-> v_subject values <> "" /\ v_difficulty values <> ""
      /\ v_attempts values <> ""
      /\ validateAttempts (v_attempts values) = "".
Proof.
  unfold validStep. simpl.
  rewrite !andb_true_iff, negb_true_iff, !truthy_string_true,
    truthy_string_false.
  tauto.
Qed.

(** C6 (amended). [validateAttempts] accepts a value exactly when
    [Number(value)] is a finite number between 1 and 3 inclusive, whether
    an integer or not; it rejects blank and non-numeric input with one
    shared message, input below 1 with a second message and input above 3
    with a third, the three being different; and step 0 passes its gate
    exactly when subject, difficulty and attempts are non-empty and this
    validation passes. *)
Theorem validateAttempts_spec :
  forall value,
    (validateAttempts value = ""
     <-> exists q, Js.Number value = Js.Fin q /\ (1 <= q)%Q /\ (q <= 3)%Q)
    /\ (value = "" \/ Js.isNaN (Js.Number value) = true ->
        validateAttempts value = "Debes ingresar un número de intentos.")
    /\ (value <> "" -> Js.lt (Js.Number value) Js.one = true ->
        validateAttempts value = "El número de intentos debe ser al menos 1.")
    /\ (Js.gt (Js.Number value) (Js.of_Z 3) = true ->
        validateAttempts value
        = "El número de intentos no puede ser mayor a 3.")
    /\ (forall values errors total,
          validStep 0 values errors total = true
          <-> v_subject values <> "" /\ v_difficulty values <> ""
              /\ v_attempts values <> ""
              /\ validateAttempts (v_attempts values) = "").
Proof.
  intros value. split; [apply validateAttempts_accepted|].
  split; [|split; [|split; [|apply validStep_0]]].
  - unfold validateAttempts. intros [->|H]; [reflexivity|].
    rewrite H, orb_true_r. reflexivity.
  - unfold validateAttempts. intros Hne Hlt.
    destruct (String.eqb_spec value ""); [contradiction|].
    destruct (Js.Number value); try discriminate Hlt; cbn [Js.isNaN orb];
      now rewrite Hlt.
  - unfold validateAttempts. intros Hgt.
    destruct (String.eqb_spec value "") as [->|Hne]; [discriminate|].
    destruct (Js.Number value) as [| | |q]; try discriminate Hgt;
      cbn [Js.isNaN orb]; [reflexivity|].
    rewrite Hgt.
    replace (Js.lt (Js.Fin q) Js.one) with false; [reflexivity|].
    unfold Js.gt in Hgt. cbn in Hgt |- *.
    change (inject_Z 1) with 1%Q. change (inject_Z 3) with 3%Q in Hgt.
    destruct (Qle_bool 1 q) eqn:E1; [reflexivity|]. exfalso.
    apply negb_true_iff in Hgt.
    assert (H1 : ~ (1 <= q)%Q) by (rewrite <- Qle_bool_iff; congruence).
    assert (H3 : ~ (q <= 3)%Q) by (rewrite <- Qle_bool_iff; congruence).
    apply H1. apply Qnot_le_lt in H3. apply Qlt_le_weak.
    eapply Qle_lt_trans; [|exact H3]. discriminate.
Qed.

(** C6, as stated, fails: ["2.5"] is accepted although it is no integer,
    and blank and non-numeric input are rejected with the same message. *)
Lemma validateAttempts_accepts_fraction :
  validateAttempts "2.5" = ""
  /\ Js.is_integer (Js.Number "2.5") = false
  /\ validateAttempts "" = validateAttempts "abc".
Proof. repeat split. Qed.

End Attempts.

(** ** The AI generation requests of the client *)

Section AiRequest.
Import ExamCreatePage.

Variable String_of : Js.value -> string.
Variable toLowerCase : string -> string.

Lemma add_Fin_inv x y q :
  Js.add x y = Js.Fin q -> exists a b, x = Js.Fin a /\ y = Js.Fin b.
Proof. destruct x, y; simpl; try discriminate. eauto. Qed.

Lemma count_cases v :
  count v = Js.to_number (or_else v (Js.VNum Js.zero)) \/ count v = Js.zero.
Proof. unfold count. destruct (Js.truthy_number _); auto. Qed.

Lemma count_not_NaN v : Js.isNaN (count v) = false.
Proof.
  unfold count.
  destruct (Js.to_number _) eqn:E; simpl; try reflexivity.
  destruct (negb _); reflexivity.
Qed.

Lemma count_missing (raw : gmap string Js.value) key :
  raw !! key = None -> count (get raw key) = Js.zero.
Proof. intros H. unfold get. rewrite H. reflexivity. Qed.

Lemma wire_sum_passes d q :
  Js.add (Js.add (Js.add (d_multiple_choice d) (d_true_false d))
                 (d_open_analysis d)) (d_open_exercise d) = Js.Fin q ->
  Js.strict_neq (ExamsController.sumDistribution (Some (wire d))) (Js.Fin q)
  = false.
Proof.
  intros H.
  destruct (add_Fin_inv _ _ _ H) as (s3 & oe & H3 & Hoe).
  destruct (add_Fin_inv _ _ _ H3) as (s2 & oa & H2 & Hoa).
  destruct (add_Fin_inv _ _ _ H2) as (mc & tf & Hmc & Htf).
  unfold ExamsController.sumDistribution, wire. cbn.
  rewrite Hmc, Htf, Hoa, Hoe in *. cbn [json_number Js.nullish].
  rewrite H. unfold Js.strict_neq. now rewrite strict_eq_refl_Fin.
Qed.

(** C10 (amended). [buildAiInputFromForm] sets [totalQuestions] to the
    sum of the four distribution counts, each being [Number(field ?? 0)]
    or 0 when that is [NaN] or 0 (a missing field counts 0; a count is
    never [NaN], and a negative input stays negative), so that whenever
    the total is finite the distribution the backend receives passes its
    sum check; and the request of a single-question regeneration has
    [totalQuestions] 1 and a distribution with 1 for the question's kind
    and 0 for the other three, which passes both backend checks. *)
Theorem ai_requests_sum_to_total :
  forall (raw : gmap string Js.value) (k : Kind),
    let ai := buildAiInputFromForm String_of toLowerCase raw in
    let one := oneDto String_of toLowerCase raw k in
    totalQuestions ai
    = Js.add (Js.add (Js.add (count (get raw "multipleChoice"))
                             (count (get raw "trueFalse")))
                     (count (get raw "analysis")))
             (count (get raw "openEnded"))
    /\ distribution ai
       = {| d_multiple_choice := count (get raw "multipleChoice");
            d_true_false := count (get raw "trueFalse");
            d_open_analysis := count (get raw "analysis");
            d_open_exercise := count (get raw "openEnded") |}
    /\ (forall key, Js.isNaN (count (get raw key)) = false
                    /\ (raw !! key = None -> count (get raw key) = Js.zero))
    /\ (forall q, totalQuestions ai = Js.Fin q ->
          Js.strict_neq
            (ExamsController.sumDistribution (Some (wire (distribution ai))))
            (totalQuestions ai) = false)
    /\ totalQuestions one = Js.one
    /\ count_of (distribution one) k = Js.one
    /\ (forall k', k' <> k -> count_of (distribution one) k' = Js.zero)
    /\ Js.le (totalQuestions one) Js.zero = false
    /\ Js.strict_neq
         (ExamsController.sumDistribution (Some (wire (distribution one))))
         (totalQuestions one) = false.
Proof.
  intros raw k ai one.
  split; [reflexivity|]. split; [reflexivity|].
  split; [intros key; split; [apply count_not_NaN|apply count_missing]|].
  split.
  { intros q Hq. rewrite Hq. apply wire_sum_passes. exact Hq. }
  split; [reflexivity|].
  split; [destruct k; reflexivity|].
  split; [intros k' Hk; destruct k, k'; try reflexivity; congruence|].
  split; [reflexivity|].
  destruct k; reflexivity.
Qed.

End AiRequest.

(** ** Quick-save *)

Section QuickSaveFacts.
Import ExamsController.

Variable courses : list Course.
Variable savedExam_create : SavedExamData -> outcome SavedExam.
Variable now : N.
Variable nowISO : string.
Variable randomUUID : string.
Variable suffix : nat -> string.

Lemma string_length_append (a b : string) :
  String.length (a ++ b) = (String.length a + String.length b)%nat.
Proof. induction a as [|c a IH]; simpl; [reflexivity|now rewrite IH]. Qed.

Lemma max_length_ge (used : gset string) s :
  s ∈ used -> (String.length s <= max_length used)%nat.
Proof.
  unfold max_length. revert s.
  apply (set_fold_ind_L
           (fun n (X : gset string) =>
              forall s, s ∈ X -> (String.length s <= n)%nat)).
  - intros s Hs. set_solver.
  - intros x X n _ IH s Hs.
    apply elem_of_union in Hs as [Hs|Hs].
    + apply elem_of_singleton in Hs as ->. lia.
    + specialize (IH s Hs). lia.
Qed.

(** The loop ends within its fuel, on an id that is not in use *)
Lemma rename_loop_fresh fuel used id k :
  (S (max_length used) <= fuel + String.length id)%nat ->
  exists id' k', rename_loop suffix fuel used id k = Some (id', k')
                 /\ id' ∉ used.
Proof.
  revert id k. induction fuel as [|fuel IH]; intros id k Hfuel; simpl.
  - destruct (decide (id ∈ used)) as [Hin|Hout]; [|eauto].
    apply max_length_ge in Hin. lia.
  - destruct (decide (id ∈ used)) as [Hin|Hout]; [|eauto].
    apply IH. rewrite !string_length_append. simpl. lia.
Qed.

Lemma normalize_one_fresh used k q i :
  exists q' k',
    normalize_one now suffix used k q i = Some (q', {[ q_id q' ]} ∪ used, k')
    /\ q_id q' ∉ used.
Proof.
  unfold normalize_one.
  destruct (rename_loop_fresh (S (max_length used)) used
              (rq_id q ?? ("q_" ++ pretty now ++ "_" ++
                           (rq_type q ?? "open_analysis") ++ "_" ++ pretty i))
              k) as (id' & k' & -> & Hfresh); [lia|].
  exists {| q_id := id'; q_type := rq_type q ?? "open_analysis";
            q_text := rq_text q ?? ""; q_options := rq_options q |}, k'.
  split; [reflexivity|exact Hfresh].
Qed.

(** Normalization yields one question per raw question, with ids that
    differ from one another and from those already in use *)
Lemma normalize_from_distinct qs :
  forall used k i,
  exists r,
    normalize_from now suffix used k qs i = Some r
    /\ length r = length qs
    /\ NoDup (map q_id r)
    /\ (forall x, x ∈ map q_id r -> x ∉ used).
Proof.
  induction qs as [|q qs IH]; intros used k i; simpl.
  - exists []. repeat split; [constructor|]. intros x Hx. inversion Hx.
  - destruct (normalize_one_fresh used k q i) as (q' & k' & -> & Hq').
    destruct (IH ({[ q_id q' ]} ∪ used) k' (S i)) as (r & -> & Hlen & Hnd & Hout).
    exists (q' :: r). simpl. repeat split.
    + now rewrite Hlen.
    + constructor; [|exact Hnd].
      intros Hin. apply Hout in Hin. set_solver.
    + intros x Hx. apply elem_of_cons in Hx as [->|Hx]; [exact Hq'|].
      apply Hout in Hx. set_solver.
Qed.

(** [quickSave] always finishes its loops *)
Lemma quickSave_returns body req :
  result (quickSave courses savedExam_create now nowISO randomUUID suffix
            body req) <> Returned None.
Proof.
  unfold quickSave.
  destruct (normalize_from_distinct (rawQuestions body) ∅ 0%nat 0%nat)
    as (qs & -> & _).
  destruct (negb (Js.truthy (b_courseId body))); simpl.
  - destruct (findFirst_createdAt_asc courses); simpl; [|discriminate].
    destruct (savedExam_create _); simpl; discriminate.
  - destruct (savedExam_create _); simpl; discriminate.
Qed.

Lemma findFirst_least rows :
  match findFirst_createdAt_asc rows with
  | Some fc =>
      fc ∈ rows
      /\ forall c, c ∈ rows -> (course_createdAt fc <= course_createdAt c)%Z
  | None => rows = []
  end.
Proof.
  induction rows as [|c rows IH]; simpl; [reflexivity|].
  destruct (findFirst_createdAt_asc rows) as [m|].
  - destruct IH as [Hm Hle].
    destruct (Z.ltb_spec (course_createdAt m) (course_createdAt c)).
    + split; [apply elem_of_cons; now right|].
      intros x Hx. apply elem_of_cons in Hx as [->|Hx]; [lia|auto].
    + split; [apply elem_of_cons; now left|].
      intros x Hx. apply elem_of_cons in Hx as [->|Hx]; [lia|].
      specialize (Hle x Hx). lia.
  - subst rows. split; [apply elem_of_cons; now left|].
    intros x Hx. apply elem_of_cons in Hx as [->|Hx]; [lia|].
    inversion Hx.
Qed.

(** With a content object in the body, that object is what is stored:
    the normalized questions are dropped. *)
Lemma quickSave_content_verbatim body req co :
  Js.truthy (b_courseId body) = true ->
  b_content body = Some co ->
  exists data,
    trace (quickSave courses savedExam_create now nowISO randomUUID suffix
             body req) = [SavedExamCreate data]
    /\ d_content data = Verbatim co.
Proof.
  intros Hc Hco. unfold quickSave. rewrite Hc, Hco. simpl.
  destruct (normalize_from_distinct (rawQuestions body) ∅ 0%nat 0%nat)
    as (qs & -> & _).
  eexists. split.
  - simpl. destruct (savedExam_create _); reflexivity.
  - reflexivity.
Qed.

(** Without a content object, the stored question list is the
    normalized one, and its ids are pairwise distinct. *)
Lemma quickSave_built_distinct body req :
  Js.truthy (b_courseId body) = true ->
  b_content body = None ->
  exists data,
    trace (quickSave courses savedExam_create now nowISO randomUUID suffix
             body req) = [SavedExamCreate data]
    /\ NoDup (persisted_ids (d_content data))
    /\ length (persisted_ids (d_content data)) = length (rawQuestions body).
Proof.
  intros Hc Hco. unfold quickSave. rewrite Hc, Hco. simpl.
  destruct (normalize_from_distinct (rawQuestions body) ∅ 0%nat 0%nat)
    as (qs & -> & Hlen & Hnd & _).
  eexists. split; [|split].
  - simpl. destruct (savedExam_create _); reflexivity.
  - simpl. rewrite <- (map_map q_id Some).
    apply (NoDup_fmap_2 Some). exact Hnd.
  - simpl. now rewrite length_map.
Qed.

(** C8. For every quick-save request without a (truthy) [courseId]: if
    the course table is empty the controller only queries it and answers
    bad-request, storing nothing; otherwise it stores the exam under the
    id of a course whose creation time is the least of the table, and,
    when the payload has no [teacherId] either, under that course's
    [teacherId] (left out if the course has none). *)
Theorem quickSave_without_courseId :
  forall body req,
    Js.truthy (b_courseId body) = false ->
    (courses = [] ->
     exists r,
       quickSave courses savedExam_create now nowISO randomUUID suffix
         body req = ([CourseFindFirst], Returned (Some r))
       /\ is_bad_request r)
    /\ (courses <> [] ->
        exists fc data,
          fc ∈ courses
          /\ (forall c, c ∈ courses ->
                (course_createdAt fc <= course_createdAt c)%Z)
          /\ trace (quickSave courses savedExam_create now nowISO
                      randomUUID suffix body req)
             = [CourseFindFirst; SavedExamCreate data]
          /\ d_courseId data = Js.VStr (course_id fc)
          /\ (truthy_opt (b_teacherId body) = false ->
              d_teacherId data
              = if truthy_opt (course_teacherId fc)
                then course_teacherId fc else None)
          /\ (truthy_opt (b_teacherId body) = true ->
              d_teacherId data = b_teacherId body)).
Proof.
  intros body req Hc. unfold quickSave. rewrite Hc. simpl.
  pose proof (findFirst_least courses) as Hff.
  destruct (findFirst_createdAt_asc courses) as [fc|]; split.
  - destruct Hff as [Hin _]. intros ->. inversion Hin.
  - intros _. destruct Hff as [Hin Hle]. simpl.
    destruct (normalize_from_distinct (rawQuestions body) ∅ 0%nat 0%nat)
      as (qs & -> & _).
    exists fc. eexists. split; [exact Hin|]. split; [exact Hle|].
    split; [simpl; destruct (savedExam_create _); reflexivity|].
    split; [reflexivity|]. simpl. split.
    + intros Ht. rewrite Ht. simpl.
      destruct (truthy_opt (course_teacherId fc)) eqn:E;
        [now rewrite E | now rewrite Ht].
    + intros Ht. rewrite Ht. simpl. now rewrite Ht.
  - intros _. simpl. eexists. split; reflexivity.
  - contradiction.
Qed.

End QuickSaveFacts.

(** ** The wizard's steps *)

Section WizardFacts.
Import ExamForm.

Variable Hook : Type.
Variable setValue : Hook -> Field -> Js.value -> Hook.
Variable validate : Hook -> bool * gmap string string.
Variable getTotalQuestions : Hook -> Js.number.

Lemma step_setStep f (st : State Hook) :
  step Hook (setStep Hook setValue f st) = f (step Hook st).
Proof.
  unfold setStep, step_effect. simpl.
  destruct (f (step Hook st) =? 2)%Z; reflexivity.
Qed.

Lemma step_onChange name value st :
  step Hook (onChange Hook setValue validate name value st) = step Hook st.
Proof. reflexivity. Qed.

Lemma step_onResetStep st :
  step Hook (onResetStep Hook setValue validate st) = step Hook st.
Proof.
  unfold onResetStep.
  repeat match goal with |- context [if ?b then _ else _] => destruct b end;
    reflexivity.
Qed.

(** [onSubmit] moves on, by one step, only below step 2 and only when
    the hook's [validate()] reports valid *)
Lemma step_onSubmit st :
  step Hook (onSubmit Hook setValue validate getTotalQuestions st)
  = step Hook st
  \/ (step Hook (onSubmit Hook setValue validate getTotalQuestions st)
      = (step Hook st + 1)%Z
      /\ (step Hook st < 2)%Z
      /\ fst (validate (hook Hook st)) = true).
Proof.
  unfold onSubmit, touchAndValidate.
  destruct (validate (hook Hook st)) as [valid errs]. simpl.
  destruct valid; simpl; [|now left].
  destruct (Z.ltb_spec (step Hook st) 2).
  - right. rewrite step_setStep. simpl. auto.
  - left. destruct (negb _); reflexivity.
Qed.

(** What one event does to the step *)
Lemma handle_step ev st :
  (ev = Submit -> submit_gated Hook validate getTotalQuestions st) ->
  let st' := handle Hook setValue validate getTotalQuestions ev st in
  step Hook st' = step Hook st
  \/ (step Hook st' = (step Hook st + 1)%Z
      /\ (ev = ClickSiguiente \/ ev = Submit)
      /\ (step Hook st < 2)%Z
      /\ validStep_at Hook getTotalQuestions st = true)
  \/ (step Hook st' = (step Hook st - 1)%Z
      /\ ev = ClickAnterior
      /\ (0 < step Hook st)%Z).
Proof.
  intros Hgate. destruct ev; simpl.
  - left. reflexivity.
  - left. destruct (limpiar_disabled Hook st);
      [reflexivity|apply step_onResetStep].
  - destruct (Z.gtb_spec (step Hook st) 0); [|now left].
    right. right. rewrite step_setStep. auto.
  - destruct (Z.ltb_spec (step Hook st) 2); simpl; [|now left].
    destruct (validStep_at Hook getTotalQuestions st) eqn:Hv;
      rewrite ?orb_true_r; simpl; [|now left].
    destruct (sending Hook st); simpl; [now left|].
    right. left. rewrite step_setStep. auto.
  - now left.
  - destruct (step_onSubmit st) as [H|(H & Hlt & Hvalid)]; [now left|].
    right. left. split; [exact H|]. specialize (Hgate eq_refl). auto.
  - now left.
Qed.

Lemma reachable_in_range st :
  reachable Hook setValue validate getTotalQuestions st ->
  (0 <= step Hook st <= 2)%Z.
Proof.
  induction 1 as [st H0|st ev Hr IH].
  - lia.
  - destruct ev; simpl.
    + exact IH.
    + destruct (limpiar_disabled Hook st);
        [exact IH|now rewrite step_onResetStep].
    + destruct (Z.gtb_spec (step Hook st) 0); [|exact IH].
      rewrite step_setStep. lia.
    + destruct (Z.ltb_spec (step Hook st) 2); simpl; [|exact IH].
      destruct (negb _); [|exact IH].
      destruct (validStep_at _ _ _); [|exact IH].
      rewrite step_setStep. lia.
    + exact IH.
    + destruct (step_onSubmit st) as [->|(-> & Hlt & _)]; lia.
    + exact IH.
Qed.


End WizardFacts.

(** ** The claims on the sample requests *)

Example Number_samples :
  Js.Number "2" = Js.of_Z 2 /\ Js.Number " 3 " = Js.of_Z 3
  /\ Js.Number "" = Js.zero /\ Js.Number "abc" = Js.NaN
  /\ Js.Number "2.5" = Js.Fin 2.5 /\ Js.Number "1e2" = Js.of_Z 100
  /\ Js.Number "0x1f" = Js.of_Z 31 /\ Js.Number "-Infinity" = Js.NegInf
  /\ Js.Number "12px" = Js.NaN.
Proof. repeat split. Qed.

(** The example of the spec: five questions as 2 + 1 + 1 + 1 are accepted *)
Example create_five_of_five :
  exists r,
    ExamsController.create string Samples.created "u-1"
      (Samples.create_dto 5 (Some (Samples.counts 2 1 1 1))) Samples.teacher_b
    = ([ExamsController.CreateExamExecute
          (ExamsController.createCmd_of
             (Samples.create_dto 5 (Some (Samples.counts 2 1 1 1))))],
       Returned r)
    /\ is_success r /\ data r = Some "exam-1".
Proof. apply create_accepted; reflexivity. Qed.

(** Two questions with the same id, then one whose id is the one the next
    would be given, then two without id *)
Example normalize_samples :
  option_map (map ExamsController.q_id)
    (ExamsController.normalize_from 17 Samples.suffix ∅ 0
       [ Samples.question_a; Samples.question_a;
         {| ExamsController.rq_id := Some "q_17_open_analysis_3";
            ExamsController.rq_type := None;
            ExamsController.rq_text := None;
            ExamsController.rq_options := None |};
         {| ExamsController.rq_id := None;
            ExamsController.rq_type := None;
            ExamsController.rq_text := None;
            ExamsController.rq_options := None |};
         {| ExamsController.rq_id := None;
            ExamsController.rq_type := Some "true_false";
            ExamsController.rq_text := None;
            ExamsController.rq_options := None |} ] 0)
  = Some ["a"; "a_k3f9"; "q_17_open_analysis_3";
          "q_17_open_analysis_3_k3f9"; "q_17_true_false_4"].
Proof. vm_compute. reflexivity. Qed.


Lemma nonpositive_total_is_rejected_witness :
  ExamsController.rejected
    (ExamsController.create string Samples.created "u-1"
       (Samples.create_dto 0 (Some (Samples.counts 0 0 0 0))) Samples.teacher_b)
  /\ ExamsController.rejected
       (ExamsController.generate Samples.generated "u-1"
          (Samples.generate_dto (-1) (Some (Samples.counts 1 0 0 (-2))))
          Samples.teacher_b).
Proof.
  destruct (nonpositive_total_is_rejected string Samples.created
              Samples.generated "u-1") as [Hc Hg].
  split; [apply Hc | apply Hg]; reflexivity.
Defined.

Lemma create_without_distribution_is_rejected_witness :
  ExamsController.rejected
    (ExamsController.create string Samples.created "u-1"
       (Samples.create_dto 5 None) Samples.teacher_b).
Proof.
  apply (create_without_distribution_is_rejected string Samples.created "u-1").
  reflexivity.
Defined.

Lemma getExamById_outcomes_witness :
  (exists r,
      ExamsController.getExamById ExamsController.StoredExam
        (ExamsController.getByIdUseCase_spec Samples.exams) "u-1" "e1"
        Samples.anonymous = ([], Returned r) /\ code r = 403%Z)
  /\ (exists r,
         result (ExamsController.getExamById _
                   (ExamsController.getByIdUseCase_spec Samples.exams)
                   "u-1" "e1" Samples.teacher_b) = Returned r
         /\ code r = 403%Z /\ data r = None)
  /\ (exists r,
         result (ExamsController.getExamById _
                   (ExamsController.getByIdUseCase_spec Samples.exams)
                   "u-1" "e9" Samples.teacher_b) = Returned r
         /\ code r = 404%Z /\ data r = None).
Proof.
  split; [|split].
  - apply (proj1 (getExamById_outcomes "u-1" "e1" Samples.anonymous)).
    reflexivity.
  - apply (proj1 (proj2 (getExamById_outcomes "u-1" "e1" Samples.teacher_b))
             Samples.exams "teacher-b"
             {| ExamsController.se_id := "e1";
                ExamsController.se_teacherId := "teacher-a";
                ExamsController.se_title := "Parcial" |});
      [reflexivity | reflexivity | discriminate].
  - apply (proj1 (proj2 (proj2
             (getExamById_outcomes "u-1" "e9" Samples.teacher_b)))
             Samples.exams "teacher-b"); reflexivity.
Defined.

Lemma generate_groups_by_kind_witness :
  exists r g,
    ExamsController.generate Samples.generated "u-1"
      (Samples.generate_dto 5 (Some (Samples.counts 1 2 1 1)))
      Samples.teacher_b
    = ([ExamsController.GenerateQuestionsExecute
          (ExamsController.genCmd_of
             (Samples.generate_dto 5 (Some (Samples.counts 1 2 1 1))))],
       Returned r)
    /\ is_success r /\ data r = Some g
    /\ (forall key,
          is_Some (ExamsController.bucket g key)
          <-> key ∈ ExamsController.kinds)
    /\ (forall key b,
          ExamsController.bucket g key = Some b ->
          sublist b Samples.flat
          /\ Forall (fun q => ExamsController.type q = key) b
          /\ (forall l, sublist l Samples.flat ->
                        Forall (fun q => ExamsController.type q = key) l ->
                        sublist l b)).
Proof.
  apply (generate_groups_by_kind Samples.generated "u-1"
           (Samples.generate_dto 5 (Some (Samples.counts 1 2 1 1)))
           Samples.teacher_b Samples.flat); reflexivity.
Defined.

Lemma validateAttempts_spec_witness :
  ExamForm.validateAttempts "2" = ""
  /\ ExamForm.validateAttempts "abc" = "Debes ingresar un número de intentos."
  /\ ExamForm.validateAttempts "0"
     = "El número de intentos debe ser al menos 1."
  /\ ExamForm.validateAttempts "4"
     = "El número de intentos no puede ser mayor a 3."
  /\ ExamForm.validStep 0 Samples.general_data ∅ Js.zero = true.
Proof.
  split; [|split; [|split; [|split]]].
  - apply (proj1 (validateAttempts_spec "2")).
    exists 2%Q. repeat split; discriminate.
  - apply (proj1 (proj2 (validateAttempts_spec "abc"))). right. reflexivity.
  - apply (proj1 (proj2 (proj2 (validateAttempts_spec "0"))));
      [discriminate | reflexivity].
  - apply (proj1 (proj2 (proj2 (proj2 (validateAttempts_spec "4"))))).
    reflexivity.
  - apply (proj2 (proj2 (proj2 (proj2 (validateAttempts_spec "2"))))).
    repeat split; discriminate.
Defined.

(** C7 (the code departs from the claim). A quick-save payload that
    carries a content object with two questions of the same id has that
    object stored as it is: the stored question list has the id twice. *)
Theorem quickSave_stores_duplicate_ids :
  exists data,
    trace (ExamsController.quickSave Samples.course_table Samples.saved
             1757621658000 "2025-09-11T20:14:18.000Z" "u-1" Samples.suffix
             Samples.body_with_content Samples.teacher_b)
    = [ExamsController.SavedExamCreate data]
    /\ ExamsController.persisted_ids (ExamsController.d_content data)
       = [Some "a"; Some "a"]
    /\ ~ NoDup (ExamsController.persisted_ids (ExamsController.d_content data)).
Proof.
  destruct (quickSave_content_verbatim Samples.course_table Samples.saved
              1757621658000 "2025-09-11T20:14:18.000Z" "u-1" Samples.suffix
              Samples.body_with_content Samples.teacher_b
              {| ExamsController.co_questions :=
                   Some [Samples.question_a; Samples.question_a];
                 ExamsController.co_rest := "" |} eq_refl eq_refl)
    as (data & Htrace & Hcontent).
  exists data. split; [exact Htrace|]. rewrite Hcontent. simpl.
  split; [reflexivity|].
  intros Hnd. apply NoDup_cons in Hnd as [Hnotin _].
  apply Hnotin. apply elem_of_cons. now left.
Qed.

Lemma quickSave_without_courseId_witness :
  exists fc data,
    fc ∈ Samples.course_table
    /\ (forall c, c ∈ Samples.course_table ->
          (ExamsController.course_createdAt fc
           <= ExamsController.course_createdAt c)%Z)
    /\ trace (ExamsController.quickSave Samples.course_table Samples.saved
                1757621658000 "2025-09-11T20:14:18.000Z" "u-1" Samples.suffix
                Samples.body_without_course Samples.teacher_b)
       = [ExamsController.CourseFindFirst; ExamsController.SavedExamCreate data]
    /\ ExamsController.d_courseId data = Js.VStr (ExamsController.course_id fc)
    /\ (ExamsController.truthy_opt
          (ExamsController.b_teacherId Samples.body_without_course) = false ->
        ExamsController.d_teacherId data
        = if ExamsController.truthy_opt (ExamsController.course_teacherId fc)
          then ExamsController.course_teacherId fc else None)
    /\ (ExamsController.truthy_opt
          (ExamsController.b_teacherId Samples.body_without_course) = true ->
        ExamsController.d_teacherId data
        = ExamsController.b_teacherId Samples.body_without_course).
Proof.
  apply (proj2 (quickSave_without_courseId Samples.course_table Samples.saved
                  1757621658000 "2025-09-11T20:14:18.000Z" "u-1"
                  Samples.suffix Samples.body_without_course
                  Samples.teacher_b eq_refl)).
  discriminate.
Defined.


(** C10, as stated, fails: the count of a field holding ["-3"] is [-3],
    a negative number. *)
Lemma negative_count_is_kept :
  ExamCreatePage.d_multiple_choice
    (ExamCreatePage.distribution
       (ExamCreatePage.buildAiInputFromForm Samples.String_of
          Samples.toLowerCase Samples.raw_negative))
  = Js.of_Z (-3)
  /\ Js.lt (Js.of_Z (-3)) Js.zero = true.
Proof. split; reflexivity. Qed.

Lemma ai_requests_sum_to_total_witness :
  Js.strict_neq
    (ExamsController.sumDistribution
       (Some (ExamCreatePage.wire
                (ExamCreatePage.distribution
                   (ExamCreatePage.buildAiInputFromForm Samples.String_of
                      Samples.toLowerCase Samples.raw_negative)))))
    (ExamCreatePage.totalQuestions
       (ExamCreatePage.buildAiInputFromForm Samples.String_of
          Samples.toLowerCase Samples.raw_negative)) = false
  /\ ExamCreatePage.count_of
       (ExamCreatePage.distribution
          (ExamCreatePage.oneDto Samples.String_of Samples.toLowerCase
             Samples.raw_negative ExamCreatePage.true_false))
       ExamCreatePage.open_analysis = Js.zero.
Proof.
  destruct (ai_requests_sum_to_total Samples.String_of Samples.toLowerCase
              Samples.raw_negative ExamCreatePage.true_false)
    as (_ & _ & _ & Hsum & _ & _ & Hzero & _).
  split.
  - apply (Hsum 2%Q). reflexivity.
  - apply Hzero. discriminate.
Defined.

(** * Further properties *)

(** ** Integer counts *)

Section IntegerCounts.
Import ExamsController.

Lemma le_of_Z t : Js.le (Js.of_Z t) Js.zero = (t <=? 0)%Z.
Proof.
  unfold Js.le, Js.zero, Js.of_Z. cbn [Js.lt Js.strict_eq].
  destruct (Z.leb_spec t 0) as [H|H].
  - destruct (Qle_bool (inject_Z 0) (inject_Z t)) eqn:E; [|reflexivity].
    apply Qle_bool_iff in E. rewrite <- Zle_Qle in E.
    assert (t = 0%Z) as -> by lia. reflexivity.
  - assert (E : Qle_bool (inject_Z 0) (inject_Z t) = true).
    { apply Qle_bool_iff. rewrite <- Zle_Qle. lia. }
    rewrite E. simpl.
    destruct (Qeq_bool (inject_Z t) (inject_Z 0)) eqn:E'; [|reflexivity].
    apply Qeq_bool_iff in E'.
    apply (proj1 (inject_Z_injective _ _)) in E'. lia.
Qed.

Lemma strict_eq_Fin_of_Z q z t :
  Qeq q (inject_Z z) ->
  Js.strict_eq (Js.Fin q) (Js.of_Z t) = (z =? t)%Z.
Proof.
  intros Hq. unfold Js.strict_eq, Js.of_Z.
  destruct (Z.eqb_spec z t) as [->|Hne].
  - apply Qeq_bool_iff. exact Hq.
  - destruct (Qeq_bool q (inject_Z t)) eqn:E; [|reflexivity].
    apply Qeq_bool_iff in E. rewrite Hq in E.
    apply (proj1 (inject_Z_injective _ _)) in E. contradiction.
Qed.

Lemma add_Fin_Qeq p q a b :
  Qeq p (inject_Z a) -> Qeq q (inject_Z b) ->
  exists r, Js.add (Js.Fin p) (Js.Fin q) = Js.Fin r
            /\ Qeq r (inject_Z (a + b)).
Proof.
  intros Hp Hq. eexists. split; [reflexivity|].
  rewrite Qred_correct, Hp, Hq, inject_Z_plus. reflexivity.
Qed.

Lemma nullish_of_Z (o : option Z) :
  (Js.of_Z <$> o) ?? Js.zero = Js.of_Z (default 0%Z o).
Proof. destruct o; reflexivity. Qed.

Lemma sumDistribution_integer mc tf oa oe :
  exists q,
    sumDistribution (Some (integer_counts mc tf oa oe)) = Js.Fin q
    /\ Qeq q (inject_Z (default 0 mc + default 0 tf + default 0 oa
                        + default 0 oe)%Z).
Proof.
  unfold sumDistribution, integer_counts. cbn [multiple_choice true_false
    open_analysis open_exercise].
  rewrite !nullish_of_Z. unfold Js.of_Z.
  destruct (add_Fin_Qeq (inject_Z (default 0%Z mc)) (inject_Z (default 0%Z tf))
              _ _ (Qeq_refl _) (Qeq_refl _)) as (r1 & -> & H1).
  destruct (add_Fin_Qeq r1 (inject_Z (default 0%Z oa)) _ _ H1 (Qeq_refl _))
    as (r2 & -> & H2).
  destruct (add_Fin_Qeq r2 (inject_Z (default 0%Z oe)) _ _ H2 (Qeq_refl _))
    as (r3 & -> & H3).
  exists r3. split; [reflexivity|exact H3].
Qed.

End IntegerCounts.

(** ** When the handlers are called *)

Section Dispatch.
Import ExamsController.

Variable Exam : Type.
Variable createExamHandler_execute : CreateExamCommand -> outcome Exam.
Variable generateQuestionsHandler_execute :
  GenerateQuestionsCommand -> outcome (list GeneratedQuestion).
Variable randomUUID : string.

Lemma create_passed dto req :
  Js.le (ce_totalQuestions dto) Js.zero = false ->
  Js.strict_neq (sumDistribution (ce_distribution dto))
                (ce_totalQuestions dto) = false ->
  create Exam createExamHandler_execute randomUUID dto req
  = bind (call (CreateExamExecute (createCmd_of dto))
               (createExamHandler_execute (createCmd_of dto)))
         (fun exam => ret (responseSuccess (cid randomUUID req) exam
                             "Exam created successfully" (pathOf req))).
Proof. intros H1 H2. unfold create. now rewrite H1, H2. Qed.

Lemma generate_passed dto req :
  Js.le (gq_totalQuestions dto) Js.zero = false ->
  Js.strict_neq (sumDistribution (gq_distribution dto))
                (gq_totalQuestions dto) = false ->
  generate generateQuestionsHandler_execute randomUUID dto req
  = bind (call (GenerateQuestionsExecute (genCmd_of dto))
               (generateQuestionsHandler_execute (genCmd_of dto)))
         (fun flat => ret (responseSuccess (cid randomUUID req) (group flat)
                             "Questions generated successfully" (pathOf req))).
Proof. intros H1 H2. unfold generate. now rewrite H1, H2. Qed.

Lemma create_dispatch dto req :
  let run := create Exam createExamHandler_execute randomUUID dto req in
  (trace run = [CreateExamExecute (createCmd_of dto)]
   <-> Js.le (ce_totalQuestions dto) Js.zero = false
       /\ Js.strict_neq (sumDistribution (ce_distribution dto))
                        (ce_totalQuestions dto) = false)
  /\ (trace run = [] \/ trace run = [CreateExamExecute (createCmd_of dto)])
  /\ (forall e, result run = Thrown e ->
        createExamHandler_execute (createCmd_of dto) = Thrown e).
Proof.
  intros run; subst run.
  destruct (Js.le (ce_totalQuestions dto) Js.zero) eqn:H1;
    [|destruct (Js.strict_neq (sumDistribution (ce_distribution dto))
                 (ce_totalQuestions dto)) eqn:H2].
  - unfold create. rewrite H1. simpl.
    repeat split; try discriminate; auto; intros [? ?]; discriminate.
  - unfold create. rewrite H1, H2. simpl.
    repeat split; try discriminate; auto; intros [? ?]; discriminate.
  - rewrite (create_passed dto req H1 H2). simpl.
    destruct (createExamHandler_execute (createCmd_of dto)); simpl;
      repeat split; auto; intros e' [=]; congruence.
Qed.

Lemma generate_dispatch dto req :
  let run := generate generateQuestionsHandler_execute randomUUID dto req in
  (trace run = [GenerateQuestionsExecute (genCmd_of dto)]
   <-> Js.le (gq_totalQuestions dto) Js.zero = false
       /\ Js.strict_neq (sumDistribution (gq_distribution dto))
                        (gq_totalQuestions dto) = false)
  /\ (trace run = [] \/ trace run = [GenerateQuestionsExecute (genCmd_of dto)])
  /\ (forall e, result run = Thrown e ->
        generateQuestionsHandler_execute (genCmd_of dto) = Thrown e).
Proof.
  intros run; subst run.
  destruct (Js.le (gq_totalQuestions dto) Js.zero) eqn:H1;
    [|destruct (Js.strict_neq (sumDistribution (gq_distribution dto))
                 (gq_totalQuestions dto)) eqn:H2].
  - unfold generate. rewrite H1. simpl.
    repeat split; try discriminate; auto; intros [? ?]; discriminate.
  - unfold generate. rewrite H1, H2. simpl.
    repeat split; try discriminate; auto; intros [? ?]; discriminate.
  - rewrite (generate_passed dto req H1 H2). simpl.
    destruct (generateQuestionsHandler_execute (genCmd_of dto)); simpl;
      repeat split; auto; intros e' [=]; congruence.
Qed.



End Dispatch.

(** ** What grouping keeps and what it drops *)

Section GroupingMore.
Import ExamsController.

Lemma known_kind_cases q :
  (known_kind q = true /\ type q ∈ kinds)
  \/ (known_kind q = false /\ type q ∉ kinds).
Proof.
  unfold known_kind, kinds. simpl.
  rewrite !elem_of_cons, elem_of_nil.
  repeat match goal with
         | |- context [String.eqb (type q) ?k] =>
             destruct (String.eqb_spec (type q) k) as [->|?];
             [left; simpl; split; [reflexivity|tauto]|]
         end.
  right. simpl. split; [reflexivity|]. intuition congruence.
Qed.

Lemma unknown_in_no_bucket flat q key b :
  known_kind q = false ->
  bucket (group flat) key = Some b -> q ∉ b.
Proof.
  intros Hq Hb Hin.
  assert (Hkey : key ∈ kinds) by (apply (bucket_keys (group flat)); eauto).
  apply bucket_is_filter in Hb as ->.
  apply list_elem_of_In, filter_In in Hin as [_ Ht].
  apply has_type_true in Ht.
  destruct (known_kind_cases q) as [[H _]|[_ H]]; [congruence|].
  apply H. now rewrite Ht.
Qed.

Lemma group_partition flat :
  Permutation
    (g_multiple_choice (group flat) ++ g_true_false (group flat)
     ++ g_open_analysis (group flat) ++ g_open_exercise (group flat)
     ++ List.filter (fun q => negb (known_kind q)) flat)%list
    flat.
Proof.
  induction flat as [|[ty r] flat IH]; [reflexivity|].
  unfold group, known_kind, kinds, has_type in *. cbn -[String.eqb] in *.
  destruct (String.eqb_spec ty "multiple_choice") as [->|_].
  { cbn. now constructor. }
  destruct (String.eqb_spec ty "true_false") as [->|_].
  { cbn. rewrite <- Permutation_middle. now constructor. }
  destruct (String.eqb_spec ty "open_analysis") as [->|_].
  { cbn. rewrite !app_assoc, <- Permutation_middle, <- !app_assoc.
    now constructor. }
  destruct (String.eqb_spec ty "open_exercise") as [->|_].
  { cbn. rewrite !app_assoc, <- Permutation_middle, <- !app_assoc.
    now constructor. }
  cbn. rewrite !app_assoc, <- Permutation_middle, <- !app_assoc.
  now constructor.
Qed.

(** X3. Grouping loses exactly the questions of unknown kind: the four
    buckets together with the questions whose [type] is none of the four
    kinds are a rearrangement of the flat list, and a question of unknown
    kind is in no bucket.  So when every question has one of the four
    kinds, the buckets hold as many questions as the collaborator
    returned. *)
Theorem grouping_drops_unknown_kinds_only :
  forall flat,
    Permutation
      (g_multiple_choice (group flat) ++ g_true_false (group flat)
       ++ g_open_analysis (group flat) ++ g_open_exercise (group flat)
       ++ List.filter (fun q => negb (known_kind q)) flat)%list
      flat
    /\ (forall q key b,
          known_kind q = false ->
          bucket (group flat) key = Some b -> q ∉ b)
    /\ (Forall (fun q => type q ∈ kinds) flat ->
        (length (g_multiple_choice (group flat))
         + length (g_true_false (group flat))
         + length (g_open_analysis (group flat))
         + length (g_open_exercise (group flat)) = length flat)%nat).
Proof.
  intros flat. split; [apply group_partition|].
  split; [intros q key b; apply unknown_in_no_bucket|].
  intros Hall.
  assert (Hnone : List.filter (fun q => negb (known_kind q)) flat = []).
  { induction Hall as [|q l Hq _ IH]; [reflexivity|].
    simpl. destruct (known_kind_cases q) as [[-> _]|[_ H]];
      [exact IH|contradiction]. }
  pose proof (Permutation_length (group_partition flat)) as Hlen.
  rewrite Hnone, app_nil_r, !length_app in Hlen. lia.
Qed.

End GroupingMore.

(** ** The two owner-scoped queries *)

Section Queries.
Import ExamsController.

(** X4. [getExamById] always answers with an envelope, never with an
    exception, whatever the use case does; its code is 200, 403, 404 or
    500; the use case is called at most once, and only with the caller's
    own [sub] as [teacherId]; and the code is 200 exactly when the use
    case returned, the payload then being what it returned. *)
Theorem getExamById_always_answers :
  forall (V : Type) (uc : string -> string -> outcome V)
         (uuid examId : string) (req : Request),
    let run := getExamById V uc uuid examId req in
    exists r,
      result run = Returned r
      /\ (code r = 200 \/ code r = 403 \/ code r = 404 \/ code r = 500)%Z
      /\ ((identity req = None /\ trace run = [])
          \/ (exists t, identity req = Some t
                        /\ trace run = [GetByIdExecute examId t]))
      /\ (code r = 200%Z
          <-> exists t d, identity req = Some t
                          /\ uc examId t = Returned d /\ data r = Some d).
Proof.
  intros V uc uuid examId req run. subst run. unfold getExamById.
  destruct (identity req) as [t|] eqn:Hid; simpl.
  - destruct (uc examId t) as [d|m] eqn:Huc; simpl.
    + eexists. split; [reflexivity|]. split; [now left|].
      split; [right; eauto|]. split; [|reflexivity].
      intros _. exists t, d. auto.
    + eexists. split; [reflexivity|].
      rewrite classify_code.
      split; [|split; [right; eauto|]].
      * destruct (Js.includes _ "Acceso no autorizado"); [tauto|].
        destruct (Js.includes _ "Examen no encontrado"); tauto.
      * split.
        -- destruct (Js.includes _ "Acceso no autorizado"); [discriminate|].
           destruct (Js.includes _ "Examen no encontrado"); discriminate.
        -- intros (t' & d & [= <-] & Hd & _). congruence.
  - eexists. split; [reflexivity|]. split; [simpl; tauto|].
    split; [now left|]. split; [discriminate|].
    intros (t & d & [=] & _).
Qed.

(** X5. [byCourse] answers 403 without calling the use case when the
    caller has no identity; otherwise it calls the use case once with the
    caller's [sub], answers 200 with what it returns, and answers 500 to
    whatever it throws, the thrown message being passed on (a fixed text
    when there is none): unlike [getExamById], no thrown message is
    turned into 403 or 404. *)
Theorem byCourse_outcomes :
  forall (L : Type) (uc : string -> string -> outcome L)
         (uuid courseId : string) (req : Request),
    let run := byCourse L uc uuid courseId req in
    (identity req = None ->
     exists r, run = ([], Returned r) /\ code r = 403%Z)
    /\ (forall t, identity req = Some t ->
          trace run = [ListCourseExamsExecute courseId t]
          /\ (forall d, uc courseId t = Returned d ->
                exists r, result run = Returned r
                          /\ code r = 200%Z /\ data r = Some d)
          /\ (forall m, uc courseId t = Thrown m ->
                exists r, result run = Returned r
                          /\ code r = 500%Z /\ data r = None
                          /\ description r
                             = Some (m ?? "Error listando exámenes"))).
Proof.
  intros L uc uuid courseId req run. subst run. unfold byCourse. split.
  - intros ->. eexists. split; reflexivity.
  - intros t ->. simpl.
    destruct (uc courseId t) as [d|m]; simpl.
    + split; [reflexivity|]. split.
      * intros d' [= <-]. eexists. repeat split.
      * intros m [=].
    + split; [reflexivity|]. split.
      * intros d [=].
      * intros m' [= <-]. eexists. repeat split.
Qed.

End Queries.

(** ** More on quick-save *)

Section QuickSaveMore.
Import ExamsController.

Variable courses : list Course.
Variable savedExam_create : SavedExamData -> outcome SavedExam.
Variable now : N.
Variable nowISO : string.
Variable randomUUID : string.
Variable suffix : nat -> string.

Lemma string_app_assoc (a b c : string) : (a ++ b) ++ c = a ++ (b ++ c).
Proof.
  induction a as [|x a IH]; [reflexivity|].
  change (String x ((a ++ b) ++ c) = String x (a ++ (b ++ c))).
  now rewrite IH.
Qed.

Lemma string_app_nil_r (a : string) : a ++ "" = a.
Proof.
  induction a as [|x a IH]; [reflexivity|].
  change (String x (a ++ "") = String x a). now rewrite IH.
Qed.

(** The loop only appends to the id, and leaves a free id alone *)
Lemma rename_loop_extends fuel used id k id' k' :
  rename_loop suffix fuel used id k = Some (id', k') ->
  (exists rest, id' = id ++ rest)
  /\ (id ∉ used -> id' = id /\ k' = k).
Proof.
  revert id k. induction fuel as [|fuel IH]; intros id k; simpl.
  - destruct (decide (id ∈ used)); [discriminate|].
    intros [= <- <-]. split; [exists ""; now rewrite string_app_nil_r|auto].
  - destruct (decide (id ∈ used)) as [Hin|Hout].
    + intros H. apply IH in H as [(rest & ->) _].
      split; [|contradiction].
      exists ("_" ++ suffix k ++ rest).
      now rewrite !string_app_assoc.
    + intros [= <- <-]. split; [exists ""; now rewrite string_app_nil_r|auto].
Qed.

Lemma normalize_one_spec used k q i q' used' k' :
  normalize_one now suffix used k q i = Some (q', used', k') ->
  q_type q' = rq_type q ?? "open_analysis"
  /\ q_text q' = rq_text q ?? ""
  /\ q_options q' = rq_options q
  /\ used' = {[ q_id q' ]} ∪ used
  /\ (exists rest, q_id q' = base_id now q i ++ rest)
  /\ (base_id now q i ∉ used -> q_id q' = base_id now q i /\ k' = k).
Proof.
  unfold normalize_one. fold (base_id now q i).
  destruct (rename_loop suffix _ used (base_id now q i) k) as [[id k'']|] eqn:E;
    [|discriminate].
  intros [= <- <- <-]. simpl.
  apply rename_loop_extends in E as [Hext Hfree]. auto 10.
Qed.

Lemma normalize_from_lookup qs :
  forall used k i r,
    normalize_from now suffix used k qs i = Some r ->
    forall j q,
      qs !! j = Some q ->
      exists q',
        r !! j = Some q'
        /\ q_type q' = rq_type q ?? "open_analysis"
        /\ q_text q' = rq_text q ?? ""
        /\ q_options q' = rq_options q
        /\ exists rest, q_id q' = base_id now q (i + j) ++ rest.
Proof.
  induction qs as [|q0 qs IH]; intros used k i r Hr j q Hj; [discriminate|].
  simpl in Hr.
  destruct (normalize_one now suffix used k q0 i) as [[[q0' used'] k']|] eqn:E1;
    [|discriminate].
  destruct (normalize_from now suffix used' k' qs (S i)) as [r'|] eqn:E2;
    [|discriminate].
  injection Hr as <-.
  destruct j as [|j]; simpl in Hj |- *.
  - injection Hj as <-. exists q0'.
    apply normalize_one_spec in E1 as (? & ? & ? & _ & ? & _).
    rewrite Nat.add_0_r. auto.
  - replace (i + S j)%nat with (S i + j)%nat by lia.
    eapply IH; eauto.
Qed.

Lemma normalize_from_free qs :
  forall used k i,
    NoDup (base_ids now qs i) ->
    (forall b, b ∈ base_ids now qs i -> b ∉ used) ->
    exists r, normalize_from now suffix used k qs i = Some r
              /\ map q_id r = base_ids now qs i.
Proof.
  induction qs as [|q qs IH]; intros used k i Hnd Hfree; simpl.
  - exists []. auto.
  - apply NoDup_cons in Hnd as [Hnotin Hnd].
    destruct (normalize_one_fresh now suffix used k q i) as (q' & k' & E & _).
    rewrite E.
    apply normalize_one_spec in E as (_ & _ & _ & _ & _ & Hsame).
    destruct Hsame as [Hid ->].
    { apply Hfree. simpl. apply elem_of_cons. now left. }
    destruct (IH ({[ q_id q' ]} ∪ used) k (S i) Hnd) as (r & -> & Hr).
    + intros b Hb. rewrite Hid.
      apply not_elem_of_union. split.
      * intros ->%elem_of_singleton. contradiction.
      * apply Hfree. simpl. apply elem_of_cons. now right.
    + exists (q' :: r). simpl. now rewrite Hr, Hid.
Qed.

(** X6. Normalization changes nothing but ids: the normalized list has
    one question per raw question, in the same order, with the raw type
    (['open_analysis'] when missing), the raw text ([''] when missing) and
    the raw options; and the id of each is its base id, the raw id or the
    synthesized one, possibly followed by appended suffixes, never
    anything else. *)
Theorem normalization_changes_ids_only :
  forall qs,
    exists r,
      normalize_from now suffix ∅ 0 qs 0 = Some r
      /\ length r = length qs
      /\ forall j q,
           qs !! j = Some q ->
           exists q',
             r !! j = Some q'
             /\ q_type q' = rq_type q ?? "open_analysis"
             /\ q_text q' = rq_text q ?? ""
             /\ q_options q' = rq_options q
             /\ exists rest, q_id q' = base_id now q j ++ rest.
Proof.
  intros qs.
  destruct (normalize_from_distinct now suffix qs ∅ 0%nat 0%nat)
    as (r & Hr & Hlen & _).
  exists r. split; [exact Hr|]. split; [exact Hlen|].
  intros j q Hj. exact (normalize_from_lookup qs _ _ _ _ Hr j q Hj).
Qed.

(** X7. When the base ids of the raw questions are pairwise distinct,
    normalization keeps every one of them as it is: nothing is renamed,
    whatever the random suffixes would have been. *)
Theorem distinct_ids_are_kept :
  forall qs,
    NoDup (base_ids now qs 0) ->
    option_map (map q_id) (normalize_from now suffix ∅ 0 qs 0)
    = Some (base_ids now qs 0).
Proof.
  intros qs Hnd.
  destruct (normalize_from_free qs ∅ 0%nat 0%nat Hnd) as (r & -> & Hr).
  - intros b _. apply not_elem_of_empty.
  - simpl. now rewrite Hr.
Qed.

End QuickSaveMore.

Section QuickSaveRoutes.
Import ExamsController.

Variable courses : list Course.
Variable savedExam_create : SavedExamData -> outcome SavedExam.
Variable now : N.
Variable nowISO : string.
Variable randomUUID : string.
Variable suffix : nat -> string.

(** X8. A quick-save request that supplies a (truthy) [courseId] never
    looks at the course table and is never answered 400: its only call is
    one [savedExam.create], under the [courseId] and the [teacherId] of
    the payload (no [teacherId] when the payload has none), with the
    title of the payload (['Examen'] when missing) and the status
    ['Guardado']; the answer is 200 with the id and title of the stored
    row, and an exception of [savedExam.create] escapes the method. *)
Theorem quickSave_with_courseId :
  forall body req,
    Js.truthy (b_courseId body) = true ->
    let run := quickSave courses savedExam_create now nowISO randomUUID
                 suffix body req in
    exists dat,
      trace run = [SavedExamCreate dat]
      /\ d_courseId dat = b_courseId body
      /\ d_teacherId dat
         = (if truthy_opt (b_teacherId body) then b_teacherId body else None)
      /\ d_title dat = b_title body ?? "Examen"
      /\ d_status dat = "Guardado"
      /\ (forall saved, savedExam_create dat = Returned saved ->
            exists r, result run = Returned (Some r)
                      /\ code r = 200%Z
                      /\ data r = Some {| saved_id := saved_id saved;
                                          saved_title := saved_title saved |})
      /\ (forall e, savedExam_create dat = Thrown e ->
            result run = Thrown e).
Proof.
  intros body req Hc run. subst run. unfold quickSave. rewrite Hc. simpl.
  destruct (normalize_from_distinct now suffix (rawQuestions body) ∅ 0%nat 0%nat)
    as (qs & -> & _).
  eexists. split.
  { simpl. destruct (savedExam_create _); reflexivity. }
  split; [reflexivity|]. split; [reflexivity|]. split; [reflexivity|].
  split; [reflexivity|]. simpl. split.
  - intros saved ->. simpl. eexists. repeat split.
  - intros e ->. reflexivity.
Qed.

(** X9. Whenever the payload carries no content object, what quick-save
    stores is a content blob built from the payload: its subject
    (['Tema general'] when missing), its difficulty (['medio'] when
    missing), the current time and the normalized questions, one per raw
    question and with pairwise distinct ids; this holds on both routes,
    with a [courseId] or with the first course. *)
Theorem quickSave_builds_distinct_ids :
  forall body req d,
    b_content body = None ->
    d ∈ created_data
          (trace (quickSave courses savedExam_create now nowISO randomUUID
                    suffix body req)) ->
    (exists qs,
        d_content d
        = Built (b_subject body ?? "Tema general")
                (b_difficulty body ?? "medio") nowISO qs)
    /\ NoDup (persisted_ids (d_content d))
    /\ length (persisted_ids (d_content d)) = length (rawQuestions body).
Proof.
  intros body req d Hco. unfold quickSave. rewrite Hco.
  destruct (normalize_from_distinct now suffix (rawQuestions body) ∅ 0%nat 0%nat)
    as (qs & -> & Hlen & Hnd & _).
  assert (Hids : forall s f,
             NoDup (persisted_ids (Built s f nowISO qs))
             /\ length (persisted_ids (Built s f nowISO qs))
                = length (rawQuestions body)).
  { intros s f. simpl. split.
    - rewrite <- (map_map q_id Some). apply (NoDup_fmap_2 Some). exact Hnd.
    - now rewrite length_map. }
  destruct (negb (Js.truthy (b_courseId body))); simpl.
  - destruct (findFirst_createdAt_asc courses); simpl.
    + destruct (savedExam_create _); simpl;
        intros [->|[]%elem_of_nil]%elem_of_cons; cbn [d_content];
        (split; [eauto|apply (Hids _ _)]).
    + intros []%elem_of_nil.
  - destruct (savedExam_create _); simpl;
      intros [->|[]%elem_of_nil]%elem_of_cons; cbn [d_content];
      (split; [eauto|apply (Hids _ _)]).
Qed.

End QuickSaveRoutes.

(** ** The subject field *)

Section Subject.
Import ExamForm.

Lemma is_ws_space : Js.is_ws " " = true.
Proof. reflexivity. Qed.

Lemma collapse_single_spaced s :
  forall b, single_spaced b (collapse_ws s b) = true.
Proof.
  induction s as [|c s IH]; intros b; simpl; [reflexivity|].
  destruct (Js.is_ws c) eqn:Hws.
  - destruct b; [apply IH|]. simpl. apply IH.
  - simpl. destruct (Ascii.eqb_spec c " ") as [->|_].
    + rewrite is_ws_space in Hws. discriminate.
    + rewrite Hws. simpl. apply IH.
Qed.

Lemma single_spaced_trim_fixed s :
  single_spaced true s = true -> Js.trim_start s = s.
Proof.
  destruct s as [|c s]; simpl; [reflexivity|].
  destruct (Ascii.eqb_spec c " ") as [->|_]; simpl; [discriminate|].
  destruct (Js.is_ws c); simpl; [discriminate|reflexivity].
Qed.

Lemma single_spaced_trim s :
  single_spaced false s = true ->
  single_spaced true (Js.trim_start s) = true.
Proof.
  destruct s as [|c s]; simpl; [reflexivity|].
  destruct (Ascii.eqb_spec c " ") as [->|Hc]; simpl.
  - intros H. now rewrite (single_spaced_trim_fixed s H).
  - destruct (Js.is_ws c) eqn:Hws; simpl; [discriminate|].
    intros H. destruct (Ascii.eqb_spec c " "); [contradiction|].
    now rewrite Hws.
Qed.

Lemma single_spaced_weaken s :
  single_spaced true s = true -> single_spaced false s = true.
Proof.
  destruct s as [|c s]; simpl; [reflexivity|].
  destruct (Ascii.eqb c " "); simpl; [discriminate|auto].
Qed.

Lemma collapse_fixed s :
  forall b, single_spaced b s = true -> collapse_ws s b = s.
Proof.
  induction s as [|c s IH]; intros b; simpl; [reflexivity|].
  destruct (Ascii.eqb_spec c " ") as [->|_].
  - rewrite is_ws_space. destruct b; simpl; [discriminate|].
    intros H. now rewrite IH.
  - destruct (Js.is_ws c); simpl; [discriminate|].
    intros H. now rewrite IH.
Qed.

Lemma collapse_keeps_letters s :
  forall b,
    List.filter (fun c => negb (Js.is_ws c)) (collapse_ws s b)
    = List.filter (fun c => negb (Js.is_ws c)) s.
Proof.
  induction s as [|c s IH]; intros b; simpl; [reflexivity|].
  destruct (Js.is_ws c) eqn:Hws; simpl.
  - destruct b; simpl; apply IH.
  - rewrite Hws. simpl. now rewrite IH.
Qed.

Lemma trim_start_keeps_letters s :
  List.filter (fun c => negb (Js.is_ws c)) (Js.trim_start s)
  = List.filter (fun c => negb (Js.is_ws c)) s.
Proof.
  induction s as [|c s IH]; simpl; [reflexivity|].
  destruct (Js.is_ws c) eqn:Hws; simpl; [exact IH|].
  now rewrite Hws.
Qed.

(** X10. The subject the form keeps is single-spaced: it has no leading
    white space, no white space other than the space character, and no
    two spaces in a row; the characters that are not white space are the
    typed ones, in order; and normalizing an already normalized subject
    changes nothing. *)
Theorem normalize_subject_single_spaced :
  forall value,
    single_spaced true (list_ascii_of_string (normalize_subject value)) = true
    /\ List.filter (fun c => negb (Js.is_ws c))
         (list_ascii_of_string (normalize_subject value))
       = List.filter (fun c => negb (Js.is_ws c)) (list_ascii_of_string value)
    /\ normalize_subject (normalize_subject value) = normalize_subject value.
Proof.
  intros value. unfold normalize_subject.
  rewrite !list_ascii_of_string_of_list_ascii.
  pose proof (collapse_single_spaced (list_ascii_of_string value) false) as H.
  apply single_spaced_trim in H.
  split; [exact H|]. split.
  - now rewrite trim_start_keeps_letters, collapse_keeps_letters.
  - rewrite (collapse_fixed _ false (single_spaced_weaken _ H)).
    now rewrite (single_spaced_trim_fixed _ H).
Qed.

End Subject.

(** ** More on the wizard *)

Section WizardMore.
Import ExamForm.

Variable Hook : Type.
Variable setValue : Hook -> Field -> Js.value -> Hook.
Variable validate : Hook -> bool * gmap string string.
Variable getTotalQuestions : Hook -> Js.number.

(** X11. Whatever event brings the wizard to step 2 from another step, the
    time is back at 45 minutes on arrival (also in the hook), and the
    other fields are as they were: a time chosen earlier is lost by
    leaving step 2 and coming back. *)
Theorem entering_step_2_resets_time :
  forall st ev,
    step Hook st <> 2%Z ->
    step Hook (handle Hook setValue validate getTotalQuestions ev st) = 2%Z ->
    values Hook (handle Hook setValue validate getTotalQuestions ev st)
    = set_timeMinutes (values Hook st) (Js.VNum (Js.of_Z 45))
    /\ hook Hook (handle Hook setValue validate getTotalQuestions ev st)
       = setValue (hook Hook st) timeMinutes (Js.VNum (Js.of_Z 45)).
Proof.
  intros st ev Hne.
  assert (Hset : forall f st1,
             values Hook st1 = values Hook st -> hook Hook st1 = hook Hook st ->
             step Hook (setStep Hook setValue f st1) = 2%Z ->
             values Hook (setStep Hook setValue f st1)
             = set_timeMinutes (values Hook st) (Js.VNum (Js.of_Z 45))
             /\ hook Hook (setStep Hook setValue f st1)
                = setValue (hook Hook st) timeMinutes (Js.VNum (Js.of_Z 45))).
  { intros f st1 Hv Hh. unfold setStep, step_effect. simpl.
    destruct (Z.eqb_spec (f (step Hook st1)) 2); simpl.
    - intros _. now rewrite Hv, Hh.
    - intros H. contradiction. }
  destruct ev; simpl.
  - intros H. contradiction.
  - destruct (limpiar_disabled Hook st); [intros H; contradiction|].
    rewrite step_onResetStep. intros H. contradiction.
  - destruct (step Hook st >? 0)%Z; [|intros H; contradiction].
    now apply Hset.
  - destruct ((step Hook st <? 2)%Z && _); [|intros H; contradiction].
    destruct (validStep_at _ _ _); [|intros H; contradiction].
    now apply Hset.
  - intros H. contradiction.
  - unfold onSubmit, touchAndValidate.
    destruct (validate (hook Hook st)) as [valid errs]. simpl.
    destruct valid; simpl; [|intros H; contradiction].
    destruct (step Hook st <? 2)%Z.
    + now apply Hset.
    + destruct (negb _); simpl; intros H; contradiction.
  - intros H. contradiction.
Qed.

(** X12. The button Limpiar at step 0, when enabled, empties subject,
    difficulty and attempts and leaves the other fields and the step
    alone; after it the gate of step 0 is closed, so Siguiente does
    nothing, and Limpiar itself is disabled. *)
Theorem limpiar_at_step_0 :
  forall st,
    step Hook st = 0%Z ->
    limpiar_disabled Hook st = false ->
    let st' := handle Hook setValue validate getTotalQuestions ClickLimpiar st in
    step Hook st' = 0%Z
    /\ values Hook st'
       = set_field (set_field (set_field (values Hook st) subject "")
                              difficulty "") attempts ""
    /\ validStep_at Hook getTotalQuestions st' = false
    /\ limpiar_disabled Hook st' = true
    /\ handle Hook setValue validate getTotalQuestions ClickSiguiente st' = st'.
Proof.
  intros [s v e sn h] H0 Hen st'. subst st'. simpl in H0. subst s.
  unfold handle. rewrite Hen. unfold onResetStep. simpl.
  split; [reflexivity|]. split; [reflexivity|].
  split; [reflexivity|]. split; [reflexivity|].
  now rewrite orb_true_r.
Qed.

(** X13. From step 0, Siguiente followed by Anterior gives back exactly
    the state one started from, when the gate is open and nothing is
    being sent. *)
Theorem siguiente_then_anterior :
  forall st,
    step Hook st = 0%Z ->
    validStep_at Hook getTotalQuestions st = true ->
    sending Hook st = false ->
    step Hook (handle Hook setValue validate getTotalQuestions
                 ClickSiguiente st) = 1%Z
    /\ handle Hook setValue validate getTotalQuestions ClickAnterior
         (handle Hook setValue validate getTotalQuestions ClickSiguiente st)
       = st.
Proof.
  intros [s v e snd h] H0 Hv Hs. simpl in *. subst s snd.
  unfold handle. simpl. rewrite Hv. simpl.
  unfold setStep, step_effect. simpl. split; reflexivity.
Qed.

(** X14. Typing the attempts at step 0, with subject and difficulty
    filled in: the gate of the step opens exactly when the error recorded
    for [attempts] is empty; that error is [validateAttempts] of the typed
    text, and the errors of the other fields are not touched. *)
Theorem typing_attempts :
  forall st value,
    step Hook st = 0%Z ->
    v_subject (values Hook st) <> "" ->
    v_difficulty (values Hook st) <> "" ->
    let st' := handle Hook setValue validate getTotalQuestions
                 (Change attempts value) st in
    errors Hook st' !! "attempts" = Some (validateAttempts value)
    /\ (forall name, name <> "attempts" ->
          errors Hook st' !! name = errors Hook st !! name)
    /\ v_attempts (values Hook st') = value
    /\ (validStep_at Hook getTotalQuestions st' = true
        <-> errors Hook st' !! "attempts" = Some "").
Proof.
  intros st value H0 Hsub Hdif st'. subst st'. simpl.
  split; [apply lookup_insert_eq|].
  split; [intros name Hn; now apply lookup_insert_ne|].
  split; [reflexivity|].
  rewrite lookup_insert_eq. unfold validStep_at. simpl. rewrite H0.
  rewrite validStep_0. simpl. split.
  - intros (_ & _ & _ & ->). reflexivity.
  - intros [= Hval]. repeat split; auto.
    intros ->. discriminate Hval.
Qed.

End WizardMore.

Section SubmissionFacts.
Import ExamForm.

Variable Hook : Type.
Variable setValue : Hook -> Field -> Js.value -> Hook.
Variable validate : Hook -> bool * gmap string string.
Variable getTotalQuestions : Hook -> Js.number.
Variable V : Type.
Variable snapshot_values : Hook -> V.
Variable createExam : V -> outcome (option CreateResult).

(** X15. A form submission asks [createExam] for the exam exactly when
    the hook's validation passes, the wizard is at its last step and the
    total of questions is positive; it asks once, with the values of the
    hook's snapshot, and then shows exactly one toast: the success text
    when the answer is ok, the answer's error text (a fixed text when
    there is none) when it is not, and a connection error text when the
    call throws.  The handler itself never throws, and it leaves the
    state that the submission and the settling of the call give. *)
Theorem submission_creates_exam :
  forall st,
    let run := onSubmit_io Hook setValue validate getTotalQuestions V
                 snapshot_values createExam st in
    let v := snapshot_values (hook Hook st) in
    (createExam_calls V (trace run) = [v]
     <-> fst (validate (hook Hook st)) = true
         /\ (2 <= step Hook st)%Z
         /\ hasQuestions Hook getTotalQuestions st = true)
    /\ (createExam_calls V (trace run) = []
        \/ createExam_calls V (trace run) = [v])
    /\ (createExam_calls V (trace run) = [] ->
        result run
        = Returned (onSubmit Hook setValue validate getTotalQuestions st))
    /\ (createExam_calls V (trace run) = [v] ->
        result run
        = Returned (handle Hook setValue validate getTotalQuestions
                      CreateExamSettled
                      (onSubmit Hook setValue validate getTotalQuestions st))
        /\ toasts V (trace run)
           = [match createExam v with
              | Returned res =>
                  if is_ok res then ("Examen creado correctamente.", "info")
                  else (error_text res, "error")
              | Thrown _ =>
                  ("No fue posible conectar con el servidor.", "error")
              end]).
Proof.
  intros st run v. subst run v.
  unfold onSubmit_io, onSubmit, touchAndValidate.
  destruct (validate (hook Hook st)) as [valid errs]. simpl.
  destruct valid; simpl.
  2:{ repeat split; auto; try discriminate. intros [[=] _]. }
  destruct (Z.ltb_spec (step Hook st) 2); simpl.
  { repeat split; auto; try discriminate. intros (_ & Hge & _). lia. }
  destruct (hasQuestions Hook getTotalQuestions st) eqn:Hq; simpl.
  2:{ repeat split; auto; try discriminate. intros (_ & _ & [=]). }
  destruct (createExam (snapshot_values (hook Hook st))) as [res|e]; simpl.
  - destruct (is_ok res); simpl;
      (split; [split; [intros _; auto with zarith|reflexivity]|]);
      (split; [now right|]); (split; [discriminate|]);
      intros _; split; reflexivity.
  - (split; [split; [intros _; auto with zarith|reflexivity]|]);
    (split; [now right|]); (split; [discriminate|]);
    intros _; split; reflexivity.
Qed.

End SubmissionFacts.

(** ** The AI panel *)

Section AiPanel.
Import ExamCreatePage.

Variable String_of : Js.value -> string.
Variable toLowerCase : string -> string.
Variables Q Res : Type.
Variable generateQuestions : AiInput -> outcome Res.
Variable normalizeToQuestions : Res -> list Q.
Variable cloneQuestion : Q -> Q.

Lemma difficultyMap_values key d :
  difficultyMap !! key = Some d ->
  d = "fácil" \/ d = "medio" \/ d = "difícil".
Proof.
  intros H. apply elem_of_list_to_map_2 in H.
  repeat (apply elem_of_cons in H as [[= _ <-]|H]; [tauto|]).
  inversion H.
Qed.

Lemma or_else_defined v d : d <> Js.VUndefined -> or_else v d <> Js.VUndefined.
Proof. destruct v; simpl; congruence. Qed.


Lemma total_positive_passes dto :
  totalQuestions dto
  = Js.add (Js.add (Js.add (d_multiple_choice (distribution dto))
                           (d_true_false (distribution dto)))
                   (d_open_analysis (distribution dto)))
           (d_open_exercise (distribution dto)) ->
  forall q, totalQuestions dto = Js.Fin q ->
    Js.strict_neq
      (ExamsController.sumDistribution (Some (wire (distribution dto))))
      (totalQuestions dto) = false.
Proof.
  intros Hsum q Hq. rewrite Hq. apply wire_sum_passes.
  now rewrite <- Hsum.
Qed.



End AiPanel.

(** ** The further properties on the sample requests *)



Lemma grouping_drops_unknown_kinds_only_witness :
  (length (ExamsController.g_multiple_choice
             (ExamsController.group Samples.flat))
   + length (ExamsController.g_true_false
               (ExamsController.group Samples.flat))
   + length (ExamsController.g_open_analysis
               (ExamsController.group Samples.flat))
   + length (ExamsController.g_open_exercise
               (ExamsController.group Samples.flat))
   = length Samples.flat)%nat.
Proof.
  apply (proj2 (proj2 (grouping_drops_unknown_kinds_only Samples.flat))).
  apply (bool_decide_unpack _). vm_compute. exact I.
Defined.

Lemma byCourse_outcomes_witness :
  exists r,
    result (ExamsController.byCourse (list string) Samples.refused "u-1" "c1"
              Samples.teacher_b) = Returned r
    /\ code r = 500%Z /\ data r = None
    /\ description r = Some "Acceso no autorizado".
Proof.
  apply (proj2 (proj2 (proj2 (byCourse_outcomes (list string) Samples.refused
                                "u-1" "c1" Samples.teacher_b)
                         "teacher-b" eq_refl))
           (Some "Acceso no autorizado") eq_refl).
Defined.

Lemma normalization_changes_ids_only_witness :
  exists r q',
    ExamsController.normalize_from 17 Samples.suffix ∅ 0
      [Samples.question_a; Samples.question_a] 0 = Some r
    /\ r !! 1%nat = Some q'
    /\ ExamsController.q_type q' = "true_false"
    /\ exists rest, ExamsController.q_id q' = "a" ++ rest.
Proof.
  destruct (normalization_changes_ids_only 17 Samples.suffix
              [Samples.question_a; Samples.question_a])
    as (r & Hr & _ & Hlookup).
  destruct (Hlookup 1%nat Samples.question_a eq_refl)
    as (q' & Hq' & Hty & _ & _ & Hid).
  exists r, q'. auto.
Defined.

Lemma distinct_ids_are_kept_witness :
  option_map (map ExamsController.q_id)
    (ExamsController.normalize_from 17 Samples.suffix ∅ 0
       [Samples.question_a; Samples.question_b;
        Samples.question_without_id] 0)
  = Some ["a"; "b"; "q_17_open_analysis_2"].
Proof.
  apply (distinct_ids_are_kept 17 Samples.suffix
           [Samples.question_a; Samples.question_b;
            Samples.question_without_id]).
  apply (bool_decide_unpack _). vm_compute. exact I.
Defined.

Lemma quickSave_with_courseId_witness :
  exists dat,
    trace (ExamsController.quickSave [] Samples.saved 17 "t" "u-1"
             Samples.suffix Samples.body_with_content Samples.teacher_b)
    = [ExamsController.SavedExamCreate dat]
    /\ ExamsController.d_courseId dat = Js.VStr "c1"
    /\ ExamsController.d_teacherId dat = None
    /\ ExamsController.d_title dat = "Examen"
    /\ ExamsController.d_status dat = "Guardado".
Proof.
  destruct (quickSave_with_courseId [] Samples.saved 17 "t" "u-1"
              Samples.suffix Samples.body_with_content Samples.teacher_b
              eq_refl) as (dat & H1 & H2 & H3 & H4 & H5 & _).
  exists dat. auto.
Defined.

Lemma quickSave_builds_distinct_ids_witness :
  exists d,
    ExamsController.created_data
      (trace (ExamsController.quickSave Samples.course_table Samples.saved 17
                "t" "u-1" Samples.suffix Samples.body_without_course
                Samples.teacher_b)) = [d]
    /\ NoDup (ExamsController.persisted_ids (ExamsController.d_content d))
    /\ length (ExamsController.persisted_ids (ExamsController.d_content d))
       = 2%nat.
Proof.
  eexists. split; [vm_compute; reflexivity|].
  apply (quickSave_builds_distinct_ids Samples.course_table Samples.saved 17
           "t" "u-1" Samples.suffix Samples.body_without_course
           Samples.teacher_b _ eq_refl).
  vm_compute. constructor.
Defined.

Lemma entering_step_2_resets_time_witness :
  ExamForm.v_timeMinutes
    (ExamForm.values _
       (ExamForm.handle _ Samples.hook_setValue Samples.hook_validate
          Samples.hook_total ExamForm.ClickSiguiente
          (ExamForm.handle _ Samples.hook_setValue Samples.hook_validate
             Samples.hook_total (ExamForm.Change ExamForm.timeMinutes "90")
             Samples.at_step_1)))
  = Js.VNum (Js.of_Z 45).
Proof.
  destruct (entering_step_2_resets_time _ Samples.hook_setValue
              Samples.hook_validate Samples.hook_total
              (ExamForm.handle _ Samples.hook_setValue Samples.hook_validate
                 Samples.hook_total (ExamForm.Change ExamForm.timeMinutes "90")
                 Samples.at_step_1)
              ExamForm.ClickSiguiente) as [Hv _].
  - discriminate.
  - reflexivity.
  - rewrite Hv. reflexivity.
Defined.

Lemma limpiar_at_step_0_witness :
  ExamForm.validStep_at _ Samples.hook_total
    (ExamForm.handle _ Samples.hook_setValue Samples.hook_validate
       Samples.hook_total ExamForm.ClickLimpiar Samples.at_step_0) = false
  /\ ExamForm.limpiar_disabled _
       (ExamForm.handle _ Samples.hook_setValue Samples.hook_validate
          Samples.hook_total ExamForm.ClickLimpiar Samples.at_step_0) = true.
Proof.
  destruct (limpiar_at_step_0 _ Samples.hook_setValue Samples.hook_validate
              Samples.hook_total Samples.at_step_0 eq_refl eq_refl)
    as (_ & _ & Hgate & Hdis & _).
  split; [exact Hgate | exact Hdis].
Defined.

Lemma siguiente_then_anterior_witness :
  ExamForm.handle _ Samples.hook_setValue Samples.hook_validate
    Samples.hook_total ExamForm.ClickAnterior
    (ExamForm.handle _ Samples.hook_setValue Samples.hook_validate
       Samples.hook_total ExamForm.ClickSiguiente Samples.at_step_0)
  = Samples.at_step_0.
Proof.
  apply (siguiente_then_anterior _ Samples.hook_setValue Samples.hook_validate
           Samples.hook_total Samples.at_step_0 eq_refl eq_refl eq_refl).
Defined.

Lemma typing_attempts_witness :
  ExamForm.errors _
    (ExamForm.handle _ Samples.hook_setValue Samples.hook_validate
       Samples.hook_total (ExamForm.Change ExamForm.attempts "7")
       Samples.at_step_0) !! "attempts"
  = Some "El número de intentos no puede ser mayor a 3.".
Proof.
  destruct (typing_attempts _ Samples.hook_setValue Samples.hook_validate
              Samples.hook_total Samples.at_step_0 "7" eq_refl)
    as (Herr & _).
  - discriminate.
  - discriminate.
  - exact Herr.
Defined.

Lemma submission_creates_exam_witness :
  ExamForm.createExam_calls _
    (trace (ExamForm.onSubmit_io _ Samples.hook_setValue Samples.hook_validate
              Samples.hook_total _ Samples.snapshot_values
              Samples.createExam_ok Samples.at_step_2))
  = [Samples.counts_data]
  /\ ExamForm.toasts _
       (trace (ExamForm.onSubmit_io _ Samples.hook_setValue
                 Samples.hook_validate Samples.hook_total _
                 Samples.snapshot_values Samples.createExam_ok
                 Samples.at_step_2))
     = [("Examen creado correctamente.", "info")].
Proof.
  destruct (submission_creates_exam _ Samples.hook_setValue
              Samples.hook_validate Samples.hook_total _
              Samples.snapshot_values Samples.createExam_ok Samples.at_step_2)
    as (Hiff & _ & _ & Hcalled).
  assert (Hcalls : ExamForm.createExam_calls _
            (trace (ExamForm.onSubmit_io _ Samples.hook_setValue
                      Samples.hook_validate Samples.hook_total _
                      Samples.snapshot_values Samples.createExam_ok
                      Samples.at_step_2)) = [Samples.counts_data]).
  { apply Hiff. repeat split. discriminate. }
  split; [exact Hcalls|]. apply (proj2 (Hcalled Hcalls)).
Defined.



